(** * StudyBuddy backend: the chat pipeline and its in-memory logs

    A shallow embedding of [backend/main.py], [backend/rag.py],
    [backend/config.py] and [backend/prompts.py].

    Python values are modelled as follows.
    - [str] is a Rocq [string] holding the UTF-8 bytes of the text.
    - [int] is [Z]; list slicing follows Python's rules for negative and
      out-of-range bounds.
    - A dict with a fixed set of keys is a record; a key that only some
      entries carry is an [option] field.
    - An exception is a value of [exn]; a function that can raise returns
      a [result].
    - The two module-level lists are the fields of [State]; the calls made
      to the two external collaborators are recorded in its [trace].
    - The external services (the generative-model endpoint, the vector
      store, the clock) are the fields of [Env]. *)

From Stdlib Require Import List String Ascii ZArith Lia Bool DecimalString.
Import ListNotations.
Local Open Scope string_scope.
Local Open Scope Z_scope.

(** ** Python helpers *)

Module Py.

Definition nl : string := String (ascii_of_nat 10) EmptyString.
Definition dq : string := String (ascii_of_nat 34) EmptyString.

(** [len(l)] *)
Definition len {A} (l : list A) : Z := Z.of_nat (List.length l).

(** Clamp of one slice bound against a sequence of length [n]. *)
Definition slice_index (n i : Z) : Z :=
  if i <? 0 then Z.max (i + n) 0 else Z.min i n.

(** [l[start:stop]]; [None] is an omitted bound. *)
Definition slice {A} (l : list A) (start stop : option Z) : list A :=
  let n := len l in
  let lo := match start with None => 0 | Some i => slice_index n i end in
  let hi := match stop with None => n | Some j => slice_index n j end in
  firstn (Z.to_nat (hi - lo)) (skipn (Z.to_nat lo) l).

(** [sep.join(parts)] *)
Fixpoint join (sep : string) (parts : list string) : string :=
  match parts with
  | [] => ""
  | [p] => p
  | p :: rest => p ++ sep ++ join sep rest
  end.

(** [str(n)] for an int *)
Definition str_int (n : Z) : string := NilZero.string_of_int (Z.to_int n).

(** Whitespace as [str.isspace] sees it, recognised on the UTF-8 bytes at
    the head of a string: the result is the rest of the string after one
    whitespace character, or [None] when the string does not start with
    one. *)
Definition byte_in (lo hi : nat) (c : ascii) : bool :=
  (Nat.leb lo (nat_of_ascii c) && Nat.leb (nat_of_ascii c) hi)%bool.

Definition skip_space (s : string) : option string :=
  match s with
  | String c rest =>
      if (byte_in 9 13 c || byte_in 28 32 c)%bool then Some rest
      else match nat_of_ascii c, rest with
      | 194%nat, String d r =>                         (* U+0085, U+00A0 *)
          if (byte_in 133 133 d || byte_in 160 160 d)%bool then Some r else None
      | 225%nat, String d (String e r) =>              (* U+1680 *)
          if (byte_in 154 154 d && byte_in 128 128 e)%bool then Some r else None
      | 226%nat, String d (String e r) =>
          if (byte_in 128 128 d &&                     (* U+2000..U+200A, U+2028, U+2029, U+202F *)
              (byte_in 128 138 e || byte_in 168 169 e || byte_in 175 175 e))%bool
          then Some r
          else if (byte_in 129 129 d && byte_in 159 159 e)%bool  (* U+205F *)
          then Some r else None
      | 227%nat, String d (String e r) =>              (* U+3000 *)
          if (byte_in 128 128 d && byte_in 128 128 e)%bool then Some r else None
      | _, _ => None
      end
  | EmptyString => None
  end.

(** [not s.strip()]: the string consists of whitespace only. *)
Fixpoint strip_is_empty_fuel (fuel : nat) (s : string) : bool :=
  match s with
  | EmptyString => true
  | _ =>
      match fuel with
      | O => false
      | S fuel' =>
          match skip_space s with
          | Some rest => strip_is_empty_fuel fuel' rest
          | None => false
          end
      end
  end.

Definition strip_is_empty (s : string) : bool :=
  strip_is_empty_fuel (String.length s) s.

(** Truth value of a string. *)
Definition truthy (s : string) : bool :=
  match s with EmptyString => false | _ => true end.

End Py.

(** ** [prompts.py] *)

Module Prompts.

Definition SYSTEM_PROMPT : string :=
  "You are " ++ Py.dq ++ "StudyBuddy" ++ Py.dq ++ ", an AI tutor and research assistant for students.

CORE PRINCIPLES:
1. NEVER give direct answers to homework or exam questions
2. Guide students to discover answers themselves using the Socratic method
3. Explain concepts clearly with examples and analogies
4. Cite sources when using specific information
5. Encourage critical thinking and curiosity

RESPONSE GUIDELINES:
- Ask clarifying questions if the query is vague
- Break down complex topics into simpler parts
- Suggest related topics for deeper learning
- Provide step-by-step guidance for problem-solving
- Recommend additional resources when helpful

FORMATTING:
- Use bullet points for lists
- Use **bold** for key terms
- Use `code blocks` for formulas/code
- Keep paragraphs concise

Remember: Your goal is to educate, not just answer. Foster independent learning skills.".

Definition STUDY_TUTOR_PROMPT : string :=
  "You are in **Study Tutor Mode**. Focus on:
- Explaining academic concepts from textbooks/courses
- Creating study plans and schedules
- Generating practice questions
- Breaking down complex problems step-by-step
- Identifying knowledge gaps

Always ask: " ++ Py.dq ++ "What part are you finding challenging?" ++ Py.dq ++ " before explaining.".

Definition RESEARCH_ASSISTANT_PROMPT : string :=
  "You are in **Research Assistant Mode**. Focus on:
- Helping formulate research questions
- Explaining research methodologies
- Summarizing academic papers
- Suggesting relevant literature
- Guiding proper citation (APA/MLA/Chicago)
- Discussing ethical considerations

Emphasize academic integrity and proper sourcing.".

End Prompts.

(** ** [config.py] *)

(** The fields of [Settings] that the modelled handlers read.
    [MAX_CONTEXT_MESSAGES] is declared by the source and read nowhere. *)
Record Settings := {
  GEMINI_API_KEY : string;
  MODEL_NAME : string;
  MAX_TOKENS : Z;
  SEARCH_RESULTS : Z;
  MAX_HISTORY_LENGTH : Z;
  MAX_CONTEXT_MESSAGES : Z
}.

(** The declared defaults, with a credential supplied by the environment. *)
Definition default_settings (key : string) : Settings := {|
  GEMINI_API_KEY := key;
  MODEL_NAME := "gemini-2.5-flash-lite";
  MAX_TOKENS := 1000;
  SEARCH_RESULTS := 3;
  MAX_HISTORY_LENGTH := 50;
  MAX_CONTEXT_MESSAGES := 10
|}.

(** ** Exceptions and results *)

Inductive exn :=
| HTTPException (status_code : Z) (detail : string)
| TimeoutException                      (* [httpx.TimeoutException] *)
| UnboundLocalError (name : string)
| PyException (msg : string).           (* any other subclass of [Exception] *)

Inductive result (A : Type) :=
| Return (a : A)
| Raise (e : exn).
Arguments Return {A} a.
Arguments Raise {A} e.

(** [str(e)]; for an [HTTPException] the text is Starlette's
    "status: detail". *)
Definition exn_str (e : exn) : string :=
  match e with
  | HTTPException c d => Py.str_int c ++ ": " ++ d
  | TimeoutException => ""
  | UnboundLocalError n =>
      "cannot access local variable '" ++ n ++ "' where it is not associated with a value"
  | PyException m => m
  end.

(** The status the transport layer answers with: 200 for a returned body,
    [http_exception_handler] for an [HTTPException], and
    [general_exception_handler] for anything else. *)
Definition http_status {A} (r : result A) : Z :=
  match r with
  | Return _ => 200
  | Raise (HTTPException c _) => c
  | Raise _ => 500
  end.

(** ** Data model *)

(** Request bodies (the pydantic models). *)
Record ChatMessage := {
  cm_message : string;
  cm_mode : string;
  cm_use_rag : bool
}.

Record Feedback := {
  rating : Z;
  comment : option string;
  message_id : option Z
}.

(** One entry of [conversation_history].  A user entry carries [use_rag],
    an assistant entry carries [model]. *)
Record Turn := {
  id : Z;
  role : string;
  message : string;
  mode : string;
  timestamp : string;
  use_rag : option bool;
  model : option string
}.

(** One entry of [feedback_store]. *)
Record FeedbackEntry := {
  fe_feedback : Feedback;
  fe_timestamp : string;
  fe_conversation_length : Z
}.

(** Calls that leave the process. *)
Inductive Event :=
| VectorSearch (query : string) (k : Z)
| Generate (prompt : string).

(** The module-level state. *)
Record State := {
  conversation_history : list Turn;
  feedback_store : list FeedbackEntry;
  trace : list Event
}.

Definition initial_state : State :=
  {| conversation_history := []; feedback_store := []; trace := [] |}.

Definition set_history (st : State) (h : list Turn) : State :=
  {| conversation_history := h;
     feedback_store := feedback_store st;
     trace := trace st |}.

Definition emit (st : State) (e : Event) : State :=
  {| conversation_history := conversation_history st;
     feedback_store := feedback_store st;
     trace := trace st ++ [e] |}.

(** ** External collaborators *)

(** A document with its score, as the vector store returns it.  The score
    is a float in the source; the model keeps its rendering under the
    format [.2f], the only use the chat path makes of it. *)
Record ScoredDoc := {
  page_content : string;
  meta_source : option string;
  meta_original_filename : option string;
  meta_chunk_id : option Z;
  meta_total_chunks : option Z;
  score_2f : string
}.

(** What one POST to the generative-model endpoint can lead to.  The body
    is given as far as [call_gemini_api] looks into it: a key that can be
    missing is an [option], a list can be empty. *)
Record Part := { part_text : option string }.
Record Content := { content_parts : option (list Part) }.
Record Candidate := { candidate_content : option Content }.

Inductive Body :=
| NotJson (why : string)                              (* [response.json()] raises *)
| Json (candidates : option (list Candidate))
       (error : option (option string)).               (* ["error"]["message"] *)

Inductive Upstream :=
| Timeout                                             (* [httpx.TimeoutException] *)
| TransportError (why : string)                       (* any other failure of the POST *)
| Response (status_code : Z) (body : Body).

Record Env := {
  gemini : string -> Upstream;
  similarity_search : string -> Z -> option (list ScoredDoc);   (* [None]: raises *)
  clock : nat -> string    (* the n-th [datetime.now().isoformat()] of a handler *)
}.

(** ** [rag.py] *)

Module SimpleRAG.

(** One formatted search result (the [metadata] copy is left out). *)
Record Snippet := {
  content : string;
  source : string;
  filename : string;
  relevance_score_2f : string;
  chunk_id : Z;
  total_chunks : Z
}.

Definition get {A} (o : option A) (default : A) : A :=
  match o with Some v => v | None => default end.

Definition format_result (d : ScoredDoc) : Snippet := {|
  content := page_content d;
  source := get (meta_source d) "unknown";
  filename := get (meta_original_filename d) "unknown";
  relevance_score_2f := score_2f d;
  chunk_id := get (meta_chunk_id d) 0;
  total_chunks := get (meta_total_chunks d) 1
|}.

(** [search]: a failure of the vector store is printed and yields []. *)
Definition search (s : Settings) (env : Env) (st : State)
    (query : string) (k : option Z) : list Snippet * State :=
  let k := match k with
           | Some k' => if k' =? 0 then SEARCH_RESULTS s else k'
           | None => SEARCH_RESULTS s
           end in
  let st := emit st (VectorSearch query k) in
  match similarity_search env query k with
  | Some results => (map format_result results, st)
  | None => ([], st)
  end.

Definition no_context : string := "No relevant context found in knowledge base.".

Definition context_part (r : Snippet) : string :=
  "[Source: " ++ filename r ++ ", " ++
  "Relevance: " ++ relevance_score_2f r ++ "]" ++ Py.nl ++
  content r ++ Py.nl.

(** [query_with_context].  Its own [except] clause guards code that cannot
    raise on the output of [search], so it has no counterpart here. *)
Definition query_with_context (s : Settings) (env : Env) (st : State)
    (query : string) (k : option Z) : string * State :=
  let '(results, st) := search s env st query k in
  match results with
  | [] => (no_context, st)
  | _ => (Py.join (Py.nl ++ "---" ++ Py.nl) (map context_part results), st)
  end.

End SimpleRAG.

(** ** [main.py]: helper functions *)

Definition build_system_prompt (mode : string) : string :=
  if String.eqb mode "study" then
    Prompts.SYSTEM_PROMPT ++ Py.nl ++ Py.nl ++ Prompts.STUDY_TUTOR_PROMPT
  else if String.eqb mode "research" then
    Prompts.SYSTEM_PROMPT ++ Py.nl ++ Py.nl ++ Prompts.RESEARCH_ASSISTANT_PROMPT
  else if String.eqb mode "general" then Prompts.SYSTEM_PROMPT
  else Prompts.SYSTEM_PROMPT.

Definition history_line (msg : Turn) : string :=
  let role := if String.eqb (role msg) "user" then "Student" else "Tutor" in
  role ++ ": " ++ message msg.

Definition format_conversation_history (messages : list Turn)
    (max_messages : Z) : string :=
  match messages with
  | [] => ""
  | _ => Py.join Py.nl
           (map history_line (Py.slice messages (Some (- max_messages)) None))
  end.

(** The default of the parameter [max_messages]. *)
Definition default_max_messages : Z := 4.

Definition bind {A B} (r : result A) (k : A -> result B) : result B :=
  match r with
  | Return a => k a
  | Raise e => Raise e
  end.

Notation "x <- r ;; k" := (bind r (fun x => k))
  (at level 61, r at next level, right associativity).

(** [d[key]] on a dict and [l[0]] on a list. *)
Definition getitem {A} (key : string) (o : option A) : result A :=
  match o with
  | Some v => Return v
  | None => Raise (PyException ("'" ++ key ++ "'"))
  end.

Definition first {A} (l : list A) : result A :=
  match l with
  | x :: _ => Return x
  | [] => Raise (PyException "list index out of range")
  end.

Definition response_json (b : Body)
  : result (option (list Candidate) * option (option string)) :=
  match b with
  | NotJson why => Raise (PyException why)
  | Json c e => Return (c, e)
  end.

(** The body of the [try] of [call_gemini_api]. *)
Definition post_generate (env : Env) (prompt : string) : result string :=
  match gemini env prompt with
  | Timeout => Raise TimeoutException
  | TransportError why => Raise (PyException why)
  | Response status body =>
      if status =? 200 then
        data <- response_json body ;;
        cands <- getitem "candidates" (fst data) ;;
        cand <- first cands ;;
        cont <- getitem "content" (candidate_content cand) ;;
        parts <- getitem "parts" (content_parts cont) ;;
        part <- first parts ;;
        getitem "text" (part_text part)
      else
        error_data <- response_json body ;;
        let msg := match snd error_data with
                   | Some (Some m) => m
                   | _ => "Unknown error"
                   end in
        Raise (HTTPException status ("Gemini API error: " ++ msg))
  end.

(** [call_gemini_api]: the two [except] clauses turn whatever the body
    raised into an [HTTPException]. *)
Definition call_gemini_api (env : Env) (st : State) (prompt : string)
  : result string * State :=
  let st := emit st (Generate prompt) in
  match post_generate env prompt with
  | Return text => (Return text, st)
  | Raise TimeoutException => (Raise (HTTPException 504 "Request timeout"), st)
  | Raise e => (Raise (HTTPException 500 ("API call failed: " ++ exn_str e)), st)
  end.

Module Fallback.

Definition study : string :=
  "I'm here to help you study! Try these techniques:

📚 **Active Learning Strategies:**
1. **Spaced Repetition**: Review material at increasing intervals
2. **Interleaving**: Mix different subjects/topics in a study session
3. **Elaboration**: Explain concepts in your own words
4. **Retrieval Practice**: Test yourself without looking at notes

What specific topic would you like help with?".

Definition research : string :=
  "**Academic Research Assistance:**

🔍 **Research Process:**
1. **Question Formulation**: Start with a clear, focused research question
2. **Literature Review**: Use databases like Google Scholar, PubMed, IEEE Xplore
3. **Source Evaluation**: Consider credibility, relevance, and currency
4. **Citation Management**: Use tools like Zotero or Mendeley

📝 **Need help with:**
- Finding relevant sources?
- Understanding methodology?
- Writing literature review?
- Proper citation formatting?".

Definition general : string :=
  "Hello! I'm your AI StudyBuddy. I can help you with:

🎯 **Learning Support:**
- Understanding complex concepts
- Solving problems step-by-step
- Creating study plans
- Generating practice questions
- Research assistance

💡 **How to get the best help:**
1. Be specific about what you're working on
2. Share what you've tried so far
3. Ask about particular concepts you find challenging
4. Request examples or analogies

What would you like to learn today?".

End Fallback.

Definition get_fallback_response (mode : string) : string :=
  if String.eqb mode "study" then Fallback.study
  else if String.eqb mode "research" then Fallback.research
  else if String.eqb mode "general" then Fallback.general
  else Fallback.general.

(** ** [main.py]: request handlers *)

Record ChatResponse := {
  response : string;
  cr_message_id : Z;
  cr_mode : string;
  cr_model : string;
  cr_timestamp : string;
  conversation_length : Z;
  rag_used : bool
}.

(** The entry built under "Add user message to history". *)
Definition user_message (env : Env) (st : State) (chat_data : ChatMessage) : Turn := {|
  id := Py.len (conversation_history st) + 1;
  role := "user";
  message := cm_message chat_data;
  mode := cm_mode chat_data;
  timestamp := clock env 0%nat;
  use_rag := Some (cm_use_rag chat_data);
  model := None
|}.

(** The entry built under "Add AI response to history". *)
Definition ai_message (s : Settings) (env : Env) (st : State)
    (chat_data : ChatMessage) (ai_response : string) : Turn := {|
  id := Py.len (conversation_history st) + 1;
  role := "assistant";
  message := ai_response;
  mode := cm_mode chat_data;
  timestamp := clock env 1%nat;
  use_rag := None;
  model := Some (MODEL_NAME s)
|}.

(** The state after [conversation_history.append(user_message)]. *)
Definition append_user_message (env : Env) (st : State)
    (chat_data : ChatMessage) : State :=
  set_history st (conversation_history st ++ [user_message env st chat_data]).

(** "Add RAG context if enabled".  [rag_system] is an object and counts as
    true, so the guard is [use_rag] alone. *)
Definition rag_context (s : Settings) (env : Env) (st : State)
    (chat_data : ChatMessage) : string * State :=
  if cm_use_rag chat_data then
    let '(ctx, st) :=
      SimpleRAG.query_with_context s env st (cm_message chat_data)
        (Some (SEARCH_RESULTS s)) in
    if (Py.truthy ctx && negb (String.eqb ctx SimpleRAG.no_context))%bool then
      (Py.nl ++ Py.nl ++ "[Relevant context from uploaded documents]:" ++ Py.nl
         ++ ctx ++ Py.nl, st)
    else (ctx, st)
  else ("", st).

(** "Construct final prompt" *)
Definition final_prompt (system_prompt rag_ctx history_context msg : string)
  : string :=
  system_prompt ++ Py.nl ++ Py.nl ++
  rag_ctx ++ Py.nl ++ Py.nl ++
  history_context ++ Py.nl ++ Py.nl ++
  "Student: " ++ msg ++ Py.nl ++ Py.nl ++
  "Tutor:".

(** The prompt the [try] block of [chat] assembles; [st] is the state after
    the user entry was appended. *)
Definition chat_prompt (s : Settings) (env : Env) (st : State)
    (chat_data : ChatMessage) : string * State :=
  let system_prompt := build_system_prompt (cm_mode chat_data) in
  let history_context :=
    format_conversation_history (conversation_history st) default_max_messages in
  let '(rag_ctx, st) := rag_context s env st chat_data in
  (final_prompt system_prompt rag_ctx history_context (cm_message chat_data), st).

(** The body of the [try] block of [chat]. *)
Definition chat_try (s : Settings) (env : Env) (st : State)
    (chat_data : ChatMessage) : result string * State :=
  let '(prompt, st) := chat_prompt s env st chat_data in
  call_gemini_api env st prompt.

(** "Trim history if too long" *)
Definition trim_history (s : Settings) (h : list Turn) : list Turn :=
  if MAX_HISTORY_LENGTH s <? Py.len h
  then Py.slice h (Some (- MAX_HISTORY_LENGTH s)) None
  else h.

(** The part of [chat] after the [try] statement. *)
Definition chat_finish (s : Settings) (env : Env) (st : State)
    (chat_data : ChatMessage) (ai_response : string)
  : result ChatResponse * State :=
  let ai := ai_message s env st chat_data ai_response in
  let st := set_history st (conversation_history st ++ [ai]) in
  let st := set_history st (trim_history s (conversation_history st)) in
  (Return {| response := ai_response;
             cr_message_id := id ai;
             cr_mode := cm_mode chat_data;
             cr_model := MODEL_NAME s;
             cr_timestamp := timestamp ai;
             conversation_length := Py.len (conversation_history st);
             rag_used := cm_use_rag chat_data |}, st).

(** [POST /chat] *)
Definition chat (s : Settings) (env : Env) (st : State)
    (chat_data : ChatMessage) : result ChatResponse * State :=
  if Py.strip_is_empty (cm_message chat_data) then
    (Raise (HTTPException 400 "Message cannot be empty"), st)
  else if negb (Py.truthy (GEMINI_API_KEY s)) then
    (Raise (HTTPException 500
       "Gemini API key not configured. Please set GEMINI_API_KEY in .env file."), st)
  else
    let st := append_user_message env st chat_data in
    let '(r, st) := chat_try s env st chat_data in
    match r with
    | Return ai_response => chat_finish s env st chat_data ai_response
    | Raise (HTTPException c d) =>            (* [except HTTPException]: re-raised *)
        (Raise (HTTPException c d), st)
    | Raise _ =>                              (* [except Exception]: fallback *)
        chat_finish s env st chat_data (get_fallback_response (cm_mode chat_data))
    end.

Record FeedbackResponse := {
  fr_success : bool;
  fr_message : string;
  feedback_id : Z
}.

(** Reading a local variable of a frame: a local has no value before its
    first assignment. *)
Definition load_fast {A} (name : string) (slot : option A) : result A :=
  match slot with
  | Some v => Return v
  | None => Raise (UnboundLocalError name)
  end.

(** [POST /feedback].  The body assigns to [feedback_store] and has no
    [global feedback_store], so in the whole body the name is a local of the
    frame, empty on entry; the module-level list of [State] is not what the
    body reads or writes. *)
Definition submit_feedback (env : Env) (st : State) (feedback : Feedback)
  : result FeedbackResponse * State :=
  let feedback_entry := {|
    fe_feedback := feedback;
    fe_timestamp := clock env 0%nat;
    fe_conversation_length := Py.len (conversation_history st) |} in
  let local_feedback_store : option (list FeedbackEntry) := None in
  match load_fast "feedback_store" local_feedback_store with
  | Raise e => (Raise e, st)
  | Return store =>
      let store := (store ++ [feedback_entry])%list in
      let store := if 100 <? Py.len store
                   then Py.slice store (Some (-100)) None
                   else store in
      (Return {| fr_success := true;
                 fr_message := "Thank you for your feedback!";
                 feedback_id := Py.len store |}, st)
  end.

Record HistoryPage := {
  messages : list Turn;
  total : Z;
  hp_limit : Z;
  hp_offset : Z;
  has_more : bool
}.

(** [GET /history] *)
Definition get_history (st : State) (limit offset : Z) (mode_filter : option string)
  : HistoryPage :=
  let filtered_history :=
    match mode_filter with
    | Some m =>
        if Py.truthy m
        then filter (fun msg => String.eqb (mode msg) m) (conversation_history st)
        else conversation_history st
    | None => conversation_history st
    end in
  let paginated_history :=
    Py.slice filtered_history (Some offset) (Some (offset + limit)) in
  {| messages := paginated_history;
     total := Py.len filtered_history;
     hp_limit := limit;
     hp_offset := offset;
     has_more := offset + limit <? Py.len filtered_history |}.

Record ClearResponse := {
  clr_success : bool;
  clr_message : string;
  cleared_count : Z
}.

(** [DELETE /history] *)
Definition clear_history (st : State) (confirm : bool)
  : result ClearResponse * State :=
  if negb confirm then
    (Raise (HTTPException 400
       "Must confirm deletion by adding ?confirm=true to URL"), st)
  else
    let cleared_count := Py.len (conversation_history st) in
    let st := set_history st [] in
    (Return {| clr_success := true;
               clr_message := "Cleared " ++ Py.str_int cleared_count
                                ++ " messages from history";
               cleared_count := cleared_count |}, st).

(** ** Requests and reachable states *)

(** What pydantic accepts as a [ChatMessage]: 1 to 2000 characters and one
    of the three modes.  A character is counted at each byte that does not
    continue a UTF-8 sequence. *)
Fixpoint char_count (s : string) : Z :=
  match s with
  | EmptyString => 0
  | String c rest =>
      (if Py.byte_in 128 191 c then 0 else 1) + char_count rest
  end.

Definition ChatMessage_valid (m : ChatMessage) : bool :=
  ((1 <=? char_count (cm_message m)) && (char_count (cm_message m) <=? 2000) &&
   (String.eqb (cm_mode m) "general" || String.eqb (cm_mode m) "study"
    || String.eqb (cm_mode m) "research"))%bool.

Definition Feedback_valid (f : Feedback) : bool :=
  ((1 <=? rating f) && (rating f <=? 5))%bool.

Inductive Request :=
| PostChat (env : Env) (chat_data : ChatMessage)
| PostFeedback (env : Env) (feedback : Feedback)
| GetHistory (limit offset : Z) (mode_filter : option string)
| DeleteHistory (confirm : bool).

(** The state a handler leaves behind, whether it returned or raised. *)
Definition handle (s : Settings) (st : State) (r : Request) : State :=
  match r with
  | PostChat env chat_data => snd (chat s env st chat_data)
  | PostFeedback env feedback => snd (submit_feedback env st feedback)
  | GetHistory _ _ _ => st
  | DeleteHistory confirm => snd (clear_history st confirm)
  end.

Definition Request_valid (r : Request) : bool :=
  match r with
  | PostChat _ chat_data => ChatMessage_valid chat_data
  | PostFeedback _ feedback => Feedback_valid feedback
  | _ => true
  end.

Definition run (s : Settings) (st : State) (rs : list Request) : State :=
  fold_left (handle s) rs st.

Inductive reachable (s : Settings) : State -> Prop :=
| reachable_initial : reachable s initial_state
| reachable_handle st r :
    reachable s st -> Request_valid r = true -> reachable s (handle s st r).

(** ** Notions used in the statements *)

(** The two checks at the head of [chat]. *)
Definition passes_checks (s : Settings) (chat_data : ChatMessage) : bool :=
  (negb (Py.strip_is_empty (cm_message chat_data))
   && Py.truthy (GEMINI_API_KEY s))%bool.

(** The prompt [chat] hands to [call_gemini_api]. *)
Definition chat_sent_prompt (s : Settings) (env : Env) (st : State)
    (chat_data : ChatMessage) : string :=
  fst (chat_prompt s env (append_user_message env st chat_data) chat_data).

(** The history text inside that prompt. *)
Definition chat_history_context (env : Env) (st : State)
    (chat_data : ChatMessage) : string :=
  format_conversation_history
    (conversation_history (append_user_message env st chat_data))
    default_max_messages.

(** [needle in hay] *)
Definition substring_of (needle hay : string) : Prop :=
  exists pre post, hay = pre ++ needle ++ post.

(** Each id is one more than the id before it. *)
Fixpoint contiguous_ids (h : list Turn) : bool :=
  match h with
  | a :: ((b :: _) as rest) => (id b =? id a + 1) && contiguous_ids rest
  | _ => true
  end.

(** The ids are 1, 2, ..., len. *)
Definition ids_from_one (h : list Turn) : Prop :=
  map id h = map Z.of_nat (seq 1 (List.length h)).

(** What the retrieval collaborator finds for a chat request. *)
Definition snippets_found (s : Settings) (env : Env) (chat_data : ChatMessage)
  : list SimpleRAG.Snippet :=
  fst (SimpleRAG.search s env initial_state (cm_message chat_data)
         (Some (SEARCH_RESULTS s))).

Definition is_search (e : Event) : bool :=
  match e with VectorSearch _ _ => true | Generate _ => false end.

(** ** Sample collaborators and requests *)

Module Sample.

Definition reply (text : string) : Upstream :=
  Response 200
    (Json (Some [ {| candidate_content :=
                       Some {| content_parts :=
                                 Some [ {| part_text := Some text |} ] |} |} ])
          None).

Definition clock0 (n : nat) : string := "2025-01-01T00:00:00".

(** Generation answers, the knowledge base is empty. *)
Definition env_ok : Env := {|
  gemini := fun _ => reply "A derivative is a rate of change.";
  similarity_search := fun _ _ => Some [];
  clock := clock0
|}.

(** Generation times out. *)
Definition env_timeout : Env := {|
  gemini := fun _ => Timeout;
  similarity_search := fun _ _ => Some [];
  clock := clock0
|}.

Definition settings : Settings := default_settings "secret".

Definition question : ChatMessage := {|
  cm_message := "What is a derivative?";
  cm_mode := "study";
  cm_use_rag := false
|}.

Definition question_rag : ChatMessage := {|
  cm_message := "What is a derivative?";
  cm_mode := "study";
  cm_use_rag := true
|}.

Definition blank : ChatMessage := {|
  cm_message := "   ";
  cm_mode := "general";
  cm_use_rag := false
|}.

Definition five_stars : Feedback :=
  {| rating := 5; comment := None; message_id := None |}.

(** The log after one answered chat. *)
Definition after_one_chat : State :=
  run settings initial_state [PostChat env_ok question].

(** The log after 27 answered chats. *)
Definition after_27_chats : State :=
  run settings initial_state (repeat (PostChat env_ok question) 27).

(** The log after 25 answered chats and one whose generation call times
    out. *)
Definition after_failed_chat : State :=
  run settings initial_state
    (repeat (PostChat env_ok question) 25 ++ [PostChat env_timeout question]).

End Sample.

(** ** More Python helpers *)

Module PyStr.

(** [s.lstrip()] *)
Fixpoint lstrip_fuel (fuel : nat) (s : string) : string :=
  match fuel with
  | O => s
  | S fuel' =>
      match Py.skip_space s with
      | Some rest => lstrip_fuel fuel' rest
      | None => s
      end
  end.

Definition lstrip (s : string) : string := lstrip_fuel (String.length s) s.

(** [s.rstrip()]: the string up to the point from which only whitespace
    follows. *)
Fixpoint rstrip (s : string) : string :=
  match s with
  | EmptyString => EmptyString
  | String c rest =>
      if Py.strip_is_empty s then EmptyString else String c (rstrip rest)
  end.

(** [s.strip()] *)
Definition strip (s : string) : string := rstrip (lstrip s).

(** [s.split(sep)] for a separator of one ASCII character. *)
Fixpoint split (sep : ascii) (s : string) : list string :=
  match s with
  | EmptyString => [EmptyString]
  | String c rest =>
      if Ascii.eqb c sep then EmptyString :: split sep rest
      else match split sep rest with
           | w :: ws => String c w :: ws
           | [] => [String c EmptyString]
           end
  end.

(** Number of occurrences of a character. *)
Fixpoint count (c : ascii) (s : string) : Z :=
  match s with
  | EmptyString => 0
  | String x rest => (if Ascii.eqb x c then 1 else 0) + count c rest
  end.

(** [s.endswith(suffix)] *)
Definition endswith (s suffix : string) : bool :=
  let n := String.length s in
  let m := String.length suffix in
  (Nat.leb m n && String.eqb (String.substring (n - m) m s) suffix)%bool.

(** [s.startswith(prefix)] *)
Definition startswith (s pre : string) : bool := String.prefix pre s.

(** [s.rfind(c)] for one ASCII character: the index of its last occurrence,
    or -1. *)
Fixpoint rfind_from (c : ascii) (s : string) (i last : Z) : Z :=
  match s with
  | EmptyString => last
  | String x rest => rfind_from c rest (i + 1) (if Ascii.eqb x c then i else last)
  end.

Definition rfind (c : ascii) (s : string) : Z := rfind_from c s 0 (-1).

(** [s[lo:hi]] and [s[lo:]] for bounds that are not negative. *)
Definition from (s : string) (lo : Z) : string :=
  String.substring (Z.to_nat lo) (String.length s - Z.to_nat lo) s.

Definition between (s : string) (lo hi : Z) : string :=
  String.substring (Z.to_nat lo) (Z.to_nat hi - Z.to_nat lo) s.

(** Is some character of the string different from [c]? *)
Fixpoint has_other (c : ascii) (s : string) : bool :=
  match s with
  | EmptyString => false
  | String x rest => (negb (Ascii.eqb x c) || has_other c rest)%bool
  end.

(** The second component of [os.path.splitext(p)] (POSIX): the text from
    the last dot on, when that dot comes after the last slash and after a
    character of the file name that is not a dot; otherwise empty. *)
Definition splitext_ext (p : string) : string :=
  let sepIndex := rfind "/" p in
  let dotIndex := rfind "." p in
  if (sepIndex <? dotIndex) && has_other "." (between p (sepIndex + 1) dotIndex)
  then from p dotIndex
  else "".

(** [os.path.basename(p)] (POSIX) *)
Definition basename (p : string) : string := from p (rfind "/" p + 1).

(** [os.path.join(a, b)] (POSIX) *)
Definition path_join (a b : string) : string :=
  if startswith b "/" then b
  else if (negb (Py.truthy a) || endswith a "/")%bool then a ++ b
  else a ++ "/" ++ b.

(** Lower case of the ASCII letters.  [str.lower] also maps characters
    outside ASCII; none of them is mapped to an ASCII letter of ".pdf",
    ".txt" or ".md", so a comparison of the result with one of these three
    strings comes out the same. *)
Definition lower_char (c : ascii) : ascii :=
  if Py.byte_in 65 90 c then ascii_of_nat (nat_of_ascii c + 32) else c.

Fixpoint lower (s : string) : string :=
  match s with
  | EmptyString => EmptyString
  | String c rest => String (lower_char c) (lower rest)
  end.

End PyStr.

(** ** [config.py]: further settings *)

(** Fields of [Settings] read by the handlers below. *)
Record ServerSettings := {
  CORS_ORIGINS : string;
  MAX_UPLOAD_SIZE : Z;
  DEBUG : bool
}.

Definition default_server_settings : ServerSettings := {|
  CORS_ORIGINS := "*";
  MAX_UPLOAD_SIZE := 10 * 1024 * 1024;
  DEBUG := false
|}.

(** [Settings.get_cors_origins] *)
Definition get_cors_origins (self : ServerSettings) : list string :=
  if String.eqb (PyStr.strip (CORS_ORIGINS self)) "*" then ["*"]
  else map PyStr.strip (PyStr.split "," (CORS_ORIGINS self)).

(** ** [main.py]: the health check *)

Record Health := {
  h_status : string;
  h_timestamp : string;
  api_connection : string;
  h_model : string;
  rag_available : bool;
  conversation_messages : Z;
  settings_loaded : bool
}.

(** [GET /health].  The probe is one POST of the text "test" to the
    generation endpoint; only the status of the answer is looked at, and
    whatever the POST raises is caught. *)
Definition health_check (s : Settings) (env : Env) (st : State)
  : Health * State :=
  let st := emit st (Generate "test") in
  let api_status :=
    match gemini env "test" with
    | Response status _ => if status =? 200 then "connected" else "disconnected"
    | _ => "disconnected"
    end in
  ({| h_status := "healthy";
      h_timestamp := clock env 0%nat;
      api_connection := api_status;
      h_model := MODEL_NAME s;
      rag_available := true;
      conversation_messages := Py.len (conversation_history st);
      settings_loaded := Py.truthy (GEMINI_API_KEY s) |}, st).

(** ** [rag.py]: adding a document *)

Module Ingest.

(** A metadata value and a metadata dict (keys in insertion order, each key
    once). *)
Inductive MetaValue :=
| MStr (s : string)
| MInt (n : Z)
| MList (l : list string)
| MNone.

Definition Metadata := list (string * MetaValue).

(** [d.get(key)] *)
Fixpoint dict_get (d : Metadata) (key : string) : option MetaValue :=
  match d with
  | [] => None
  | (k, v) :: rest => if String.eqb k key then Some v else dict_get rest key
  end.

(** [d[key] = v] *)
Fixpoint dict_set (d : Metadata) (key : string) (v : MetaValue) : Metadata :=
  match d with
  | [] => [(key, v)]
  | (k, w) :: rest =>
      if String.eqb k key then (k, v) :: rest else (k, w) :: dict_set rest key v
  end.

(** [d.update(other)] *)
Definition dict_update (d other : Metadata) : Metadata :=
  fold_left (fun acc kv => dict_set acc (fst kv) (snd kv)) other d.

Record Document := {
  doc_page_content : string;
  doc_metadata : Metadata
}.

(** What [add_document] relies on from outside: reading a text file (which
    can raise), the pages PyPDF2 extracts from a PDF ([None]: opening or
    extraction raises), the text splitter, and the vector store
    ([Some why]: [add_documents] raises). *)
Record RagEnv := {
  read_text : string -> result string;
  pdf_pages : string -> option (list string);
  split_text : string -> list string;
  add_documents : list Document -> option string
}.

(** [SimpleRAG.extract_text_from_pdf] *)
Definition extract_text_from_pdf (env : RagEnv) (pdf_path : string) : string :=
  match pdf_pages env pdf_path with
  | Some pages =>
      PyStr.strip (fold_left (fun text page => text ++ page ++ Py.nl) pages "")
  | None => ""
  end.

(** The three dicts [add_document] returns. *)
Inductive AddResult :=
| AddError (error : string)                      (* {"error": ...} *)
| AddOk (chunks_added : Z) (source : string) (total_chars : Z)
| AddFailed (error : string).                    (* {"success": False, ...} *)

(** The metadata of the document made from chunk [i]. *)
Definition chunk_metadata (file_path : string) (metadata : option Metadata)
    (n : Z) (i : Z) (chunk : string) : Metadata :=
  let given := match metadata with
               | Some (kv :: m) => Some (kv :: m)
               | _ => None                       (* [None] and {} are false *)
               end in
  let doc_metadata :=
    [ ("source", MStr file_path);
      ("chunk_id", MInt i);
      ("total_chunks", MInt n);
      ("chunk_size", MInt (char_count chunk));
      ("original_filename",
       match given with
       | Some m => match dict_get m "filename" with
                   | Some v => v
                   | None => MStr "unknown"
                   end
       | None => MStr (PyStr.basename file_path)
       end) ] in
  match given with
  | Some m => dict_update doc_metadata m
  | None => doc_metadata
  end.

(** [enumerate(chunks)] turned into documents. *)
Fixpoint make_documents (file_path : string) (metadata : option Metadata)
    (n : Z) (i : Z) (chunks : list string) : list Document :=
  match chunks with
  | [] => []
  | chunk :: rest =>
      {| doc_page_content := chunk;
         doc_metadata := chunk_metadata file_path metadata n i chunk |}
      :: make_documents file_path metadata n (i + 1) rest
  end.

(** [SimpleRAG.add_document].  The second component lists the batches
    handed to [vectorstore.add_documents], in the order of the calls. *)
Definition add_document (env : RagEnv) (file_path : string)
    (metadata : option Metadata) : result AddResult * list (list Document) :=
  let continue (text : string) : result AddResult * list (list Document) :=
    if (negb (Py.truthy text) || (char_count (PyStr.strip text) <? 50))%bool then
      (Return (AddError "Document too short or could not extract text"), [])
    else
      let chunks := split_text env text in
      let documents :=
        make_documents file_path metadata (Py.len chunks) 0 chunks in
      match add_documents env documents with
      | None =>
          (Return (AddOk (Py.len chunks) file_path (char_count text)), [documents])
      | Some why =>
          (Return (AddFailed ("Failed to embed documents: " ++ why)), [documents])
      end in
  if PyStr.endswith file_path ".pdf" then
    continue (extract_text_from_pdf env file_path)
  else if (PyStr.endswith file_path ".txt" || PyStr.endswith file_path ".md")%bool then
    match read_text env file_path with
    | Return text => continue text
    | Raise e => (Raise e, [])
    end
  else (Return (AddError "Unsupported file format"), []).

End Ingest.

(** ** [main.py]: uploading a document *)

Module Upload.

Import Ingest.

Inductive FsEvent :=
| MakeDirs (path : string)
| WriteFile (path : string) (contents : string)
| RemoveFile (path : string).

Record UploadResponse := {
  up_success : bool;
  up_filename : string;
  up_chunks_added : Z;
  up_message : string;
  up_metadata : Metadata
}.

(** What a handler leaves behind besides its result: the file-system
    operations it made and the batches it handed to the vector store. *)
Record Effects := {
  fs : list FsEvent;
  stored : list (list Document)
}.

Definition allowed_extensions : list string := [".pdf"; ".txt"; ".md"].

Definition temp_dir : string := "./temp_uploads".

(** [POST /upload] for a file with the given name and bytes.  The
    file-system calls themselves ([os.makedirs], the write, [os.remove])
    are taken to succeed, so that the file written is there when the
    clean-up looks for it. *)
Definition upload_document (ss : ServerSettings) (env : RagEnv)
    (now : string) (filename contents : string)
    (description tags : option string)
  : result UploadResponse * Effects :=
  let file_extension := PyStr.lower (PyStr.splitext_ext filename) in
  if negb (existsb (String.eqb file_extension) allowed_extensions) then
    (Raise (HTTPException 400
       ("File type not allowed. Allowed: "          (* a set: the order of the *)
          ++ Py.join ", " allowed_extensions)),     (* three is not fixed     *)
     {| fs := []; stored := [] |})
  else
    let temp_path := PyStr.path_join temp_dir filename in
    let size := Z.of_nat (String.length contents) in
    if MAX_UPLOAD_SIZE ss <? size then
      (Raise (HTTPException 400
         ("File too large. Maximum size is "
            ++ Py.str_int (MAX_UPLOAD_SIZE ss / (1024 * 1024)) ++ "MB")),
       {| fs := [MakeDirs temp_dir]; stored := [] |})
    else
      let metadata : Metadata :=
        [ ("filename", MStr filename);
          ("uploaded_at", MStr now);
          ("description",
           match description with Some d => MStr d | None => MNone end);
          ("tags",
           match tags with
           | Some t => if Py.truthy t then MList (PyStr.split "," t) else MList []
           | None => MList []
           end);
          ("file_type", MStr file_extension);
          ("file_size", MInt size) ] in
      let '(result, batches) := add_document env temp_path (Some metadata) in
      let effects :=
        {| fs := [MakeDirs temp_dir; WriteFile temp_path contents;
                  RemoveFile temp_path];
           stored := batches |} in
      match result with
      | Return (AddOk chunks_added _ _) =>
          (Return {| up_success := true;
                     up_filename := filename;
                     up_chunks_added := chunks_added;
                     up_message := "Document successfully added to knowledge base";
                     up_metadata := metadata |}, effects)
      | Return (AddError error) => (Raise (HTTPException 500 error), effects)
      | Return (AddFailed error) => (Raise (HTTPException 500 error), effects)
      | Raise e =>
          (Raise (HTTPException 500 ("Upload failed: " ++ exn_str e)), effects)
      end.

End Upload.

(** ** Further notions used in the statements *)

(** The list [get_history] pages over: the log, or its entries of one mode. *)
Definition filtered_history (st : State) (mode_filter : option string)
  : list Turn :=
  messages (get_history st (Py.len (conversation_history st)) 0 mode_filter).

(** Number of chat requests in a run. *)
Fixpoint chat_count (rs : list Request) : Z :=
  match rs with
  | [] => 0
  | PostChat _ _ :: rest => 1 + chat_count rest
  | _ :: rest => chat_count rest
  end.

(** ** Further sample values *)

Module Cases.

(** The body [chat] returns for the sample question on the empty log. *)
Definition first_answer : ChatResponse := {|
  response := "A derivative is a rate of change.";
  cr_message_id := 2;
  cr_mode := "study";
  cr_model := "gemini-2.5-flash-lite";
  cr_timestamp := "2025-01-01T00:00:00";
  conversation_length := 2;
  rag_used := false
|}.

(** Settings with the history maximum set to 0. *)
Definition settings_max0 : Settings := {|
  GEMINI_API_KEY := "secret";
  MODEL_NAME := "gemini-2.5-flash-lite";
  MAX_TOKENS := 1000;
  SEARCH_RESULTS := 3;
  MAX_HISTORY_LENGTH := 0;
  MAX_CONTEXT_MESSAGES := 10
|}.

(** The body and the state of one answered chat under [settings_max0]. *)
Definition max0_answer : ChatResponse := {|
  response := "A derivative is a rate of change.";
  cr_message_id := 2;
  cr_mode := "study";
  cr_model := "gemini-2.5-flash-lite";
  cr_timestamp := "2025-01-01T00:00:00";
  conversation_length := 2;
  rag_used := false
|}.

Definition max0_state : State :=
  snd (chat settings_max0 Sample.env_ok initial_state Sample.question).

(** A knowledge base that answers every query with one chunk. *)
Definition chunk : ScoredDoc := {|
  page_content := "The derivative measures the slope of a curve.";
  meta_source := Some "./temp_uploads/calculus.txt";
  meta_original_filename := Some "calculus.txt";
  meta_chunk_id := Some 0;
  meta_total_chunks := Some 1;
  score_2f := "0.82"
|}.

Definition env_one_chunk : Env := {|
  gemini := fun _ => Sample.reply "A derivative is a rate of change.";
  similarity_search := fun _ _ => Some [chunk];
  clock := Sample.clock0
|}.

(** The vector store raises on every query. *)
Definition env_store_down : Env := {|
  gemini := fun _ => Sample.reply "A derivative is a rate of change.";
  similarity_search := fun _ _ => None;
  clock := Sample.clock0
|}.

(** A text of 60 characters and a splitter that cuts it into two chunks. *)
Definition lesson : string :=
  "The derivative of a function measures how fast it changes.  ".

Definition rag_env : Ingest.RagEnv := {|
  Ingest.read_text := fun _ => Return lesson;
  Ingest.pdf_pages := fun _ => Some [lesson];
  Ingest.split_text := fun text =>
    [String.substring 0 30 text; String.substring 30 30 text];
  Ingest.add_documents := fun _ => None
|}.

(** The same with a text file of five characters. *)
Definition rag_env_short : Ingest.RagEnv := {|
  Ingest.read_text := fun _ => Return "hello";
  Ingest.pdf_pages := fun _ => Some ["hello"];
  Ingest.split_text := fun text => [text];
  Ingest.add_documents := fun _ => None
|}.

(** Metadata as [upload_document] builds it. *)
Definition upload_metadata : Ingest.Metadata :=
  [ ("filename", Ingest.MStr "calculus.txt");
    ("uploaded_at", Ingest.MStr "2025-01-01T00:00:00");
    ("description", Ingest.MNone);
    ("tags", Ingest.MList []);
    ("file_type", Ingest.MStr ".txt");
    ("file_size", Ingest.MInt 60) ].

(** The documents made of the sample text. *)
Definition calculus_docs : list Ingest.Document :=
  List.concat (snd (Ingest.add_document rag_env "./temp_uploads/calculus.txt"
                 (Some upload_metadata))).

(** An upstream that answers 200 with a body without candidates. *)
Definition env_no_candidates : Env := {|
  gemini := fun _ => Response 200 (Json None None);
  similarity_search := fun _ _ => Some [];
  clock := Sample.clock0
|}.

(** The state after 27 answered chats, a confirmed clear and one more
    answered chat. *)
Definition after_clear_chat : State :=
  snd (chat Sample.settings Sample.env_ok
         (snd (clear_history Sample.after_27_chats true)) Sample.question).

End Cases.

(** * Properties *)

(** ** The Python helpers on small inputs *)

Example slice_last_two : Py.slice [1; 2; 3] (Some (-2)) None = [2; 3].
Proof. reflexivity. Qed.

Example slice_minus_zero : Py.slice [1; 2; 3] (Some (- 0)) None = [1; 2; 3].
Proof. reflexivity. Qed.

Example slice_page : Py.slice [1; 2; 3] (Some 0) (Some (0 + 1)) = [1].
Proof. reflexivity. Qed.

Example strip_blank : Py.strip_is_empty ("  " ++ Py.nl ++ " ") = true.
Proof. reflexivity. Qed.

Example strip_text : Py.strip_is_empty " hi " = false.
Proof. reflexivity. Qed.

Example sample_question_valid : ChatMessage_valid Sample.question = true.
Proof. reflexivity. Qed.

Example sample_log_roles :
  map role (conversation_history Sample.after_one_chat) = ["user"; "assistant"].
Proof. reflexivity. Qed.

(** ** Slices and strings *)

Lemma slice_tail_skipn {A} (l : list A) (k : Z) :
  0 < k ->
  Py.slice l (Some (- k)) None = skipn (Z.to_nat (Py.len l - k)) l.
Proof.
  intros Hk. unfold Py.slice, Py.slice_index, Py.len.
  replace (- k <? 0) with true by (symmetry; apply Z.ltb_lt; lia).
  rewrite firstn_all2.
  - f_equal. lia.
  - rewrite length_skipn. lia.
Qed.

Lemma slice_tail_len {A} (l : list A) (k : Z) :
  0 < k -> Py.len (Py.slice l (Some (- k)) None) = Z.min k (Py.len l).
Proof.
  intros Hk. rewrite slice_tail_skipn by assumption.
  unfold Py.len. rewrite length_skipn. lia.
Qed.

Lemma slice_tail_suffix {A} (l : list A) (k : Z) :
  0 < k ->
  exists dropped, l = (dropped ++ Py.slice l (Some (- k)) None)%list.
Proof.
  intros Hk. rewrite slice_tail_skipn by assumption.
  exists (firstn (Z.to_nat (Py.len l - k)) l).
  symmetry. apply firstn_skipn.
Qed.

Lemma slice_tail_app_one {A} (l : list A) (x : A) (k : Z) :
  1 < k ->
  Py.slice (l ++ [x])%list (Some (- k)) None
  = (Py.slice l (Some (- (k - 1))) None ++ [x])%list.
Proof.
  intros Hk. rewrite !slice_tail_skipn by lia.
  unfold Py.len. rewrite length_app, Nat.add_comm. cbn [List.length Nat.add].
  rewrite skipn_app.
  replace (Z.to_nat (Z.of_nat (S (List.length l)) - k))
    with (Z.to_nat (Z.of_nat (List.length l) - (k - 1))) by lia.
  f_equal.
  replace (Z.to_nat (Z.of_nat (List.length l) - (k - 1)) - List.length l)%nat
    with 0%nat by lia.
  reflexivity.
Qed.

Lemma append_assoc (a b c : string) : (a ++ b) ++ c = a ++ (b ++ c).
Proof. induction a as [|x a IH]; cbn; [reflexivity | rewrite IH; reflexivity]. Qed.

(** ** The generation call *)

Lemma call_gemini_api_trace env st prompt :
  snd (call_gemini_api env st prompt) = emit st (Generate prompt).
Proof.
  unfold call_gemini_api.
  destruct (post_generate env prompt) as [text | []]; reflexivity.
Qed.

(** Whatever goes wrong inside [call_gemini_api] leaves it as an
    [HTTPException]: 504 for a timeout, 500 for everything else. *)
Lemma call_gemini_api_raises env st prompt e :
  post_generate env prompt = Raise e ->
  exists d,
    fst (call_gemini_api env st prompt)
    = Raise (HTTPException (match e with TimeoutException => 504 | _ => 500 end) d).
Proof.
  intros H. unfold call_gemini_api. rewrite H.
  destruct e; cbn; eexists; reflexivity.
Qed.

Lemma call_gemini_api_returns env st prompt text :
  post_generate env prompt = Return text ->
  fst (call_gemini_api env st prompt) = Return text.
Proof.
  intros H. unfold call_gemini_api. rewrite H. reflexivity.
Qed.

(** The upstream answers that make the body of the [try] raise. *)
Lemma post_generate_timeout env prompt :
  gemini env prompt = Timeout -> post_generate env prompt = Raise TimeoutException.
Proof. intros H. unfold post_generate. rewrite H. reflexivity. Qed.

Lemma post_generate_transport env prompt why :
  gemini env prompt = TransportError why ->
  post_generate env prompt = Raise (PyException why).
Proof. intros H. unfold post_generate. rewrite H. reflexivity. Qed.

Lemma post_generate_status env prompt status body :
  gemini env prompt = Response status body ->
  status <> 200 ->
  exists e, post_generate env prompt = Raise e.
Proof.
  intros H Hs. unfold post_generate. rewrite H.
  replace (status =? 200) with false by (symmetry; apply Z.eqb_neq; exact Hs).
  destruct body; cbn; eexists; reflexivity.
Qed.

Lemma post_generate_no_candidates env prompt err :
  gemini env prompt = Response 200 (Json None err) ->
  post_generate env prompt = Raise (PyException "'candidates'").
Proof. intros H. unfold post_generate. rewrite H. reflexivity. Qed.

(** ** The chat handler, step by step *)

Lemma chat_prompt_fst s env st chat_data :
  fst (chat_prompt s env st chat_data)
  = final_prompt (build_system_prompt (cm_mode chat_data))
      (fst (rag_context s env st chat_data))
      (format_conversation_history (conversation_history st) default_max_messages)
      (cm_message chat_data).
Proof.
  unfold chat_prompt. destruct (rag_context s env st chat_data). reflexivity.
Qed.

Lemma chat_prompt_snd s env st chat_data :
  snd (chat_prompt s env st chat_data) = snd (rag_context s env st chat_data).
Proof.
  unfold chat_prompt. destruct (rag_context s env st chat_data). reflexivity.
Qed.

Lemma rag_context_history s env st chat_data :
  conversation_history (snd (rag_context s env st chat_data))
  = conversation_history st.
Proof.
  unfold rag_context, SimpleRAG.query_with_context, SimpleRAG.search.
  destruct (cm_use_rag chat_data); [|reflexivity].
  destruct (similarity_search _ _ _) as [[|d ds]|]; cbn;
    repeat match goal with |- context [if ?b then _ else _] => destruct b end;
    reflexivity.
Qed.

Lemma chat_try_fst s env st chat_data :
  fst (chat_try s env st chat_data)
  = fst (call_gemini_api env (snd (chat_prompt s env st chat_data))
           (fst (chat_prompt s env st chat_data))).
Proof.
  unfold chat_try. destruct (chat_prompt s env st chat_data). reflexivity.
Qed.

Lemma chat_try_snd s env st chat_data :
  snd (chat_try s env st chat_data)
  = emit (snd (rag_context s env st chat_data))
         (Generate (fst (chat_prompt s env st chat_data))).
Proof.
  unfold chat_try. rewrite <- chat_prompt_snd.
  destruct (chat_prompt s env st chat_data) as [p st'].
  apply call_gemini_api_trace.
Qed.

Lemma chat_try_history s env st chat_data :
  conversation_history (snd (chat_try s env st chat_data))
  = conversation_history st.
Proof. rewrite chat_try_snd. cbn. apply rag_context_history. Qed.

(** The [try] block of [chat] ends with a text or with an [HTTPException];
    no other exception comes out of it. *)
Lemma chat_try_result s env st chat_data :
  (exists text, fst (chat_try s env st chat_data) = Return text) \/
  (exists c d, fst (chat_try s env st chat_data) = Raise (HTTPException c d)).
Proof.
  rewrite chat_try_fst. unfold call_gemini_api.
  destruct (post_generate env _) as [text | []]; cbn; eauto.
Qed.

Lemma chat_unfold s env st chat_data :
  passes_checks s chat_data = true ->
  chat s env st chat_data
  = let st1 := append_user_message env st chat_data in
    let st2 := snd (chat_try s env st1 chat_data) in
    match fst (chat_try s env st1 chat_data) with
    | Return ai_response => chat_finish s env st2 chat_data ai_response
    | Raise (HTTPException c d) => (Raise (HTTPException c d), st2)
    | Raise _ =>
        chat_finish s env st2 chat_data (get_fallback_response (cm_mode chat_data))
    end.
Proof.
  unfold passes_checks. intros H. apply andb_true_iff in H as [H1 H2].
  apply negb_true_iff in H1. unfold chat. rewrite H1, H2. cbn [negb].
  destruct (chat_try s env _ chat_data) as [r st2]. reflexivity.
Qed.

Lemma rejected_chat_state s env st chat_data :
  passes_checks s chat_data = false -> snd (chat s env st chat_data) = st.
Proof.
  unfold passes_checks, chat. intros H.
  destruct (Py.strip_is_empty (cm_message chat_data)); [reflexivity|].
  cbn in H. rewrite H. reflexivity.
Qed.

Lemma chat_raise_on_generation_failure s env st chat_data e :
  passes_checks s chat_data = true ->
  post_generate env (chat_sent_prompt s env st chat_data) = Raise e ->
  exists d,
    chat s env st chat_data
    = (Raise (HTTPException (match e with TimeoutException => 504 | _ => 500 end) d),
       snd (chat_try s env (append_user_message env st chat_data) chat_data)).
Proof.
  intros Hc He. rewrite (chat_unfold _ _ _ _ Hc). cbv zeta.
  rewrite chat_try_fst.
  destruct (call_gemini_api_raises env
              (snd (chat_prompt s env (append_user_message env st chat_data) chat_data))
              _ e He) as [d Hd].
  unfold chat_sent_prompt in *. rewrite Hd. exists d. reflexivity.
Qed.

Lemma chat_finish_history s env st chat_data ai_response :
  conversation_history (snd (chat_finish s env st chat_data ai_response))
  = trim_history s
      (conversation_history st ++ [ai_message s env st chat_data ai_response]).
Proof. reflexivity. Qed.

(** When generation answers, the log is the old log with the user entry and
    the assistant entry appended in that order, then trimmed. *)
Lemma chat_history_on_success s env st chat_data text :
  passes_checks s chat_data = true ->
  post_generate env (chat_sent_prompt s env st chat_data) = Return text ->
  let st1 := snd (chat_try s env (append_user_message env st chat_data) chat_data) in
  fst (chat s env st chat_data) = fst (chat_finish s env st1 chat_data text) /\
  conversation_history (snd (chat s env st chat_data))
  = trim_history s
      (conversation_history st
         ++ [user_message env st chat_data;
             ai_message s env st1 chat_data text]) /\
  role (user_message env st chat_data) = "user" /\
  role (ai_message s env st1 chat_data text) = "assistant" /\
  message (ai_message s env st1 chat_data text) = text.
Proof.
  intros Hc Hg st1. rewrite (chat_unfold _ _ _ _ Hc). cbv zeta.
  rewrite chat_try_fst.
  unfold chat_sent_prompt in Hg.
  rewrite (call_gemini_api_returns _ _ _ _ Hg).
  fold st1. split; [reflexivity|]. split; [|auto].
  rewrite chat_finish_history. subst st1. rewrite chat_try_history.
  cbn [append_user_message set_history conversation_history].
  rewrite <- app_assoc. reflexivity.
Qed.

(** The three ways a chat request can end. *)
Lemma chat_cases s env st chat_data :
  let h := conversation_history st in
  let u := user_message env st chat_data in
  (passes_checks s chat_data = false /\ snd (chat s env st chat_data) = st) \/
  (exists c d st1,
     conversation_history st1 = (h ++ [u])%list /\
     chat s env st chat_data = (Raise (HTTPException c d), st1)) \/
  (exists text st1,
     conversation_history st1 = (h ++ [u])%list /\
     chat s env st chat_data = chat_finish s env st1 chat_data text).
Proof.
  intros h u.
  destruct (passes_checks s chat_data) eqn:Hc.
  - right. rewrite (chat_unfold _ _ _ _ Hc). cbv zeta.
    set (st1 := snd (chat_try s env (append_user_message env st chat_data) chat_data)).
    assert (H1 : conversation_history st1 = (h ++ [u])%list)
      by (subst st1; rewrite chat_try_history; reflexivity).
    destruct (fst (chat_try s env _ chat_data)) as [text | [c d | | n | m]].
    + right. exists text, st1. auto.
    + left. exists c, d, st1. auto.
    + right. eexists _, st1. split; [exact H1 | reflexivity].
    + right. eexists _, st1. split; [exact H1 | reflexivity].
    + right. eexists _, st1. split; [exact H1 | reflexivity].
  - left. split; [reflexivity|].
    apply (rejected_chat_state s env st chat_data Hc).
Qed.

(** A body returned by [chat] carries the generated text: the fallback text
    is not what a returned body holds unless the model itself produced it. *)
Lemma chat_response_is_generated s env st chat_data body st' :
  chat s env st chat_data = (Return body, st') ->
  post_generate env (chat_sent_prompt s env st chat_data) = Return (response body).
Proof.
  intros Hr.
  destruct (passes_checks s chat_data) eqn:Hc.
  - rewrite (chat_unfold _ _ _ _ Hc) in Hr. cbv zeta in Hr.
    rewrite chat_try_fst in Hr. unfold call_gemini_api in Hr.
    fold (chat_sent_prompt s env st chat_data) in Hr.
    destruct (post_generate env (chat_sent_prompt s env st chat_data))
      as [text | []]; cbn [fst] in Hr; try discriminate Hr.
    unfold chat_finish in Hr. injection Hr as Hb _. rewrite <- Hb. reflexivity.
  - exfalso. unfold passes_checks, chat in *.
    destruct (Py.strip_is_empty (cm_message chat_data)); [discriminate|].
    cbn in Hc. rewrite Hc in Hr. discriminate.
Qed.

(** ** Reachable states *)

Lemma run_reachable s rs : forall st,
  reachable s st -> forallb Request_valid rs = true -> reachable s (run s st rs).
Proof.
  induction rs as [|r rs IH]; intros st Hst Hv; cbn in *.
  - exact Hst.
  - apply andb_true_iff in Hv as [Hr Hrs].
    apply IH; [apply reachable_handle; assumption | exact Hrs].
Qed.

(** ** Trimming *)

Lemma trim_history_len s h :
  0 < MAX_HISTORY_LENGTH s ->
  Py.len (trim_history s h) = Z.min (MAX_HISTORY_LENGTH s) (Py.len h).
Proof.
  intros Hm. unfold trim_history.
  destruct (MAX_HISTORY_LENGTH s <? Py.len h) eqn:E.
  - apply slice_tail_len. exact Hm.
  - apply Z.ltb_ge in E. lia.
Qed.

Lemma trim_history_suffix s h :
  0 < MAX_HISTORY_LENGTH s ->
  exists dropped, h = (dropped ++ trim_history s h)%list.
Proof.
  intros Hm. unfold trim_history.
  destruct (MAX_HISTORY_LENGTH s <? Py.len h).
  - apply slice_tail_suffix. exact Hm.
  - exists []. reflexivity.
Qed.

Lemma trim_history_fits s h :
  Py.len h <= MAX_HISTORY_LENGTH s -> trim_history s h = h.
Proof.
  intros H. unfold trim_history.
  replace (MAX_HISTORY_LENGTH s <? Py.len h) with false
    by (symmetry; apply Z.ltb_ge; exact H).
  reflexivity.
Qed.

(** With a positive maximum, a chat request that returns leaves a log of at
    most that many entries: the newest ones of the old log followed by the
    two new entries, in their order. *)
Lemma chat_return_within_maximum s env st chat_data body st' :
  0 < MAX_HISTORY_LENGTH s ->
  chat s env st chat_data = (Return body, st') ->
  Py.len (conversation_history st') <= MAX_HISTORY_LENGTH s /\
  exists dropped ai,
    role ai = "assistant" /\
    (conversation_history st ++ [user_message env st chat_data; ai])%list
    = (dropped ++ conversation_history st')%list.
Proof.
  intros Hm Hr.
  destruct (chat_cases s env st chat_data) as [[Hc Hs] | [H | H]].
  - exfalso. unfold passes_checks, chat in *.
    destruct (Py.strip_is_empty (cm_message chat_data)); [discriminate|].
    cbn in Hc. rewrite Hc in Hr. discriminate.
  - destruct H as (c & d & st1 & _ & H). rewrite H in Hr. discriminate.
  - destruct H as (text & st1 & H1 & H). rewrite H in Hr.
    assert (Hst : st' = snd (chat_finish s env st1 chat_data text))
      by (rewrite Hr; reflexivity).
    rewrite Hst, chat_finish_history, H1, <- app_assoc. cbn [app].
    split.
    + rewrite trim_history_len by exact Hm. lia.
    + destruct (trim_history_suffix s
        (conversation_history st
           ++ [user_message env st chat_data;
               ai_message s env st1 chat_data text]) Hm) as [dropped Hd].
      exists dropped, (ai_message s env st1 chat_data text).
      split; [reflexivity | exact Hd].
Qed.

(** ** Ids *)

Lemma ids_from_one_nil : ids_from_one [].
Proof. reflexivity. Qed.

Lemma ids_from_one_snoc h x :
  ids_from_one h -> id x = Py.len h + 1 -> ids_from_one (h ++ [x]).
Proof.
  unfold ids_from_one, Py.len. intros Hh Hx.
  rewrite map_app, length_app, seq_app, map_app, Hh. cbn. rewrite Hx.
  do 2 f_equal. lia.
Qed.

Lemma contiguous_ids_seq h : forall n,
  map id h = map Z.of_nat (seq n (List.length h)) -> contiguous_ids h = true.
Proof.
  induction h as [|a [|b rest] IH]; intros n H; try reflexivity.
  cbn in H. injection H as Ha Hb Hrest.
  cbn [contiguous_ids]. apply andb_true_iff. split.
  - apply Z.eqb_eq. lia.
  - apply (IH (S n)). cbn. rewrite Hb, Hrest. reflexivity.
Qed.

Lemma ids_from_one_contiguous h : ids_from_one h -> contiguous_ids h = true.
Proof. apply contiguous_ids_seq. Qed.

(** As long as the two new entries fit under the maximum, a chat request
    keeps the ids equal to the positions, however it ends. *)
Lemma chat_keeps_ids_from_one s env st chat_data :
  ids_from_one (conversation_history st) ->
  Py.len (conversation_history st) + 2 <= MAX_HISTORY_LENGTH s ->
  ids_from_one (conversation_history (snd (chat s env st chat_data))).
Proof.
  intros Hi Hl.
  assert (Hu : ids_from_one
                 (conversation_history st ++ [user_message env st chat_data]))
    by (apply ids_from_one_snoc; [exact Hi | reflexivity]).
  destruct (chat_cases s env st chat_data) as [[_ Hs] | [H | H]].
  - rewrite Hs. exact Hi.
  - destruct H as (c & d & st1 & H1 & H). rewrite H. cbn [snd]. rewrite H1. exact Hu.
  - destruct H as (text & st1 & H1 & H). rewrite H, chat_finish_history.
    rewrite trim_history_fits.
    + apply ids_from_one_snoc; [rewrite H1; exact Hu | reflexivity].
    + rewrite H1. unfold Py.len in *. rewrite !length_app. cbn [List.length]. lia.
Qed.

(** ** Retrieval and the prompt *)

Lemma search_fst s env st query k :
  fst (SimpleRAG.search s env st query k)
  = fst (SimpleRAG.search s env initial_state query k).
Proof.
  unfold SimpleRAG.search.
  destruct (similarity_search env query _); reflexivity.
Qed.

Lemma search_trace s env st query k :
  trace (snd (SimpleRAG.search s env st query (Some k)))
  = (trace st ++ [VectorSearch query (if k =? 0 then SEARCH_RESULTS s else k)])%list.
Proof.
  unfold SimpleRAG.search.
  destruct (similarity_search env query _); reflexivity.
Qed.

Lemma query_with_context_fst s env st query k :
  fst (SimpleRAG.query_with_context s env st query k)
  = match fst (SimpleRAG.search s env initial_state query k) with
    | [] => SimpleRAG.no_context
    | results =>
        Py.join (Py.nl ++ "---" ++ Py.nl) (map SimpleRAG.context_part results)
    end.
Proof.
  unfold SimpleRAG.query_with_context. rewrite <- (search_fst s env st).
  destruct (SimpleRAG.search s env st query k) as [[|r rs] st']; reflexivity.
Qed.

Lemma query_with_context_snd s env st query k :
  snd (SimpleRAG.query_with_context s env st query k)
  = snd (SimpleRAG.search s env st query k).
Proof.
  unfold SimpleRAG.query_with_context.
  destruct (SimpleRAG.search s env st query k) as [[|r rs] st']; reflexivity.
Qed.

Lemma rag_context_off s env st chat_data :
  cm_use_rag chat_data = false -> rag_context s env st chat_data = ("", st).
Proof. intros H. unfold rag_context. rewrite H. reflexivity. Qed.

Lemma rag_context_on s env st chat_data :
  cm_use_rag chat_data = true ->
  rag_context s env st chat_data
  = let r := SimpleRAG.query_with_context s env st (cm_message chat_data)
               (Some (SEARCH_RESULTS s)) in
    (if (Py.truthy (fst r) && negb (String.eqb (fst r) SimpleRAG.no_context))%bool
     then Py.nl ++ Py.nl ++ "[Relevant context from uploaded documents]:" ++ Py.nl
            ++ fst r ++ Py.nl
     else fst r, snd r).
Proof.
  intros H. unfold rag_context. rewrite H.
  destruct (SimpleRAG.query_with_context _ _ _ _ _) as [ctx st']. cbn [fst snd].
  destruct (Py.truthy ctx && negb (String.eqb ctx SimpleRAG.no_context))%bool;
    reflexivity.
Qed.

Lemma rag_context_fst s env st chat_data :
  fst (rag_context s env st chat_data)
  = fst (rag_context s env initial_state chat_data).
Proof.
  destruct (cm_use_rag chat_data) eqn:E.
  - rewrite !rag_context_on by exact E. cbv zeta. cbn [fst].
    rewrite !query_with_context_fst. reflexivity.
  - rewrite !rag_context_off by exact E. reflexivity.
Qed.

Lemma rag_context_trace s env st chat_data :
  trace (snd (rag_context s env st chat_data))
  = (trace st ++ if cm_use_rag chat_data
                 then [VectorSearch (cm_message chat_data) (SEARCH_RESULTS s)]
                 else [])%list.
Proof.
  destruct (cm_use_rag chat_data) eqn:E.
  - rewrite rag_context_on by exact E. cbv zeta. cbn [snd].
    rewrite query_with_context_snd, search_trace.
    destruct (SEARCH_RESULTS s =? 0); reflexivity.
  - rewrite rag_context_off by exact E. cbn. symmetry. apply app_nil_r.
Qed.

Lemma chat_finish_trace s env st chat_data ai_response :
  trace (snd (chat_finish s env st chat_data ai_response)) = trace st.
Proof. reflexivity. Qed.

(** The calls a chat request makes once it is past the two checks: at most
    one search, made only under [use_rag], then one generation call. *)
Lemma chat_trace s env st chat_data :
  passes_checks s chat_data = true ->
  trace (snd (chat s env st chat_data))
  = (trace st
       ++ (if cm_use_rag chat_data
           then [VectorSearch (cm_message chat_data) (SEARCH_RESULTS s)]
           else [])
       ++ [Generate (chat_sent_prompt s env st chat_data)])%list.
Proof.
  intros Hc. rewrite (chat_unfold _ _ _ _ Hc). cbv zeta.
  set (st1 := append_user_message env st chat_data).
  assert (Ht : trace (snd (chat_try s env st1 chat_data))
               = (trace st
                    ++ (if cm_use_rag chat_data
                        then [VectorSearch (cm_message chat_data) (SEARCH_RESULTS s)]
                        else [])
                    ++ [Generate (chat_sent_prompt s env st chat_data)])%list).
  { rewrite chat_try_snd. cbn [emit trace]. rewrite rag_context_trace.
    rewrite <- app_assoc. reflexivity. }
  destruct (fst (chat_try s env st1 chat_data)) as [text | [c d | | n | m]];
    try rewrite chat_finish_trace; exact Ht.
Qed.

(** Without [use_rag] a chat request makes no search at all. *)
Lemma chat_without_rag_never_searches s env st chat_data :
  cm_use_rag chat_data = false ->
  filter is_search (trace (snd (chat s env st chat_data)))
  = filter is_search (trace st).
Proof.
  intros Hr. destruct (passes_checks s chat_data) eqn:Hc.
  - rewrite (chat_trace _ _ _ _ Hc), Hr. cbn [app].
    rewrite filter_app. cbn. apply app_nil_r.
  - rewrite (rejected_chat_state _ _ _ _ Hc). reflexivity.
Qed.

Lemma substring_of_final_prompt_rag sys ctx hist msg :
  substring_of ctx (final_prompt sys ctx hist msg).
Proof.
  exists (sys ++ Py.nl ++ Py.nl),
         (Py.nl ++ Py.nl ++ hist ++ Py.nl ++ Py.nl ++ "Student: " ++ msg
            ++ Py.nl ++ Py.nl ++ "Tutor:").
  unfold final_prompt.
  repeat rewrite append_assoc. reflexivity.
Qed.

Lemma format_conversation_history_snoc h u :
  format_conversation_history (h ++ [u]) default_max_messages
  = Py.join Py.nl
      (map history_line (Py.slice h (Some (-3)) None) ++ [history_line u]).
Proof.
  unfold format_conversation_history, default_max_messages.
  destruct (h ++ [u])%list eqn:E; [destruct h; discriminate|].
  rewrite <- E. rewrite (slice_tail_app_one h u 4) by lia.
  rewrite map_app. reflexivity.
Qed.

(** ** The chat endpoint under a failing generation call *)

(** C1. The claim: when the generation call fails, [/chat] answers 200 with
    the fallback text of the mode.  What the code does: the failure leaves
    [call_gemini_api] as an [HTTPException], and [chat] re-raises every
    [HTTPException], so the caller gets status 504 after a timeout and 500
    after any other failure, and no response body is built. *)
Theorem chat_generation_failure_surfaces s env st chat_data e :
  passes_checks s chat_data = true ->
  post_generate env (chat_sent_prompt s env st chat_data) = Raise e ->
  let r := fst (chat s env st chat_data) in
  http_status r = match e with TimeoutException => 504 | _ => 500 end /\
  http_status r <> 200 /\
  forall body, r <> Return body.
Proof.
  intros Hc He r.
  destruct (chat_raise_on_generation_failure s env st chat_data e Hc He) as [d Hd].
  subst r. rewrite Hd. cbn [fst http_status].
  repeat split; try discriminate.
  destruct e; discriminate.
Qed.

Lemma chat_generation_failure_surfaces_witness :
  ChatMessage_valid Sample.question = true /\
  http_status (fst (chat Sample.settings Sample.env_timeout initial_state
                      Sample.question)) = 504.
Proof.
  split; [reflexivity|].
  apply (chat_generation_failure_surfaces Sample.settings Sample.env_timeout
           initial_state Sample.question TimeoutException);
    reflexivity.
Defined.

(** C2. The claim: a chat request that passes the checks always appends a
    user entry and then an assistant entry.  What the code does when the
    generation call fails: the handler raises after the user entry was
    appended, so the log grows by that single entry. *)
Theorem chat_generation_failure_appends_user_only s env st chat_data e :
  passes_checks s chat_data = true ->
  post_generate env (chat_sent_prompt s env st chat_data) = Raise e ->
  conversation_history (snd (chat s env st chat_data))
  = (conversation_history st ++ [user_message env st chat_data])%list /\
  Py.len (conversation_history (snd (chat s env st chat_data)))
  = Py.len (conversation_history st) + 1.
Proof.
  intros Hc He.
  destruct (chat_raise_on_generation_failure s env st chat_data e Hc He) as [d Hd].
  rewrite Hd. cbn [snd]. rewrite chat_try_history.
  cbn [append_user_message set_history conversation_history].
  split; [reflexivity|].
  unfold Py.len. rewrite length_app. cbn [List.length]. lia.
Qed.

Lemma chat_generation_failure_appends_user_only_witness :
  map role (conversation_history
              (snd (chat Sample.settings Sample.env_timeout initial_state
                      Sample.question)))
  = ["user"].
Proof.
  destruct (chat_generation_failure_appends_user_only Sample.settings
              Sample.env_timeout initial_state Sample.question TimeoutException)
    as [H _]; [reflexivity | reflexivity |].
  rewrite H. reflexivity.
Defined.

(** ** The feedback endpoint *)

(** C3. The claim: a feedback submission appends one entry to the feedback
    log.  What the code does: [feedback_store] is a local of the handler,
    read before it is assigned, so every submission raises
    [UnboundLocalError] (status 500) and the module-level log stays as it
    was. *)
Theorem submit_feedback_raises env st feedback :
  submit_feedback env st feedback = (Raise (UnboundLocalError "feedback_store"), st) /\
  http_status (fst (submit_feedback env st feedback)) = 500 /\
  feedback_store (snd (submit_feedback env st feedback)) = feedback_store st.
Proof. repeat split. Qed.

Example feedback_five_stars :
  Feedback_valid Sample.five_stars = true /\
  http_status (fst (submit_feedback Sample.env_ok initial_state Sample.five_stars))
  = 500 /\
  feedback_store (snd (submit_feedback Sample.env_ok initial_state Sample.five_stars))
  = [].
Proof. repeat split. Qed.

(** ** Ids and length of the log over many requests *)

(** C4. The claim: in every reachable state each id in the log is one more
    than the id before it, also after truncation.  What the code does: an
    id is the current length of the log plus one, so once the log has been
    cut back to 50 entries the next ids are 51 and 52 again.  After 27
    answered chats under the default settings the log ends with the ids
    51, 52, 51, 52. *)
Theorem ids_repeat_after_truncation :
  reachable Sample.settings Sample.after_27_chats /\
  contiguous_ids (conversation_history Sample.after_27_chats) = false /\
  map id (Py.slice (conversation_history Sample.after_27_chats) (Some (-4)) None)
  = [51; 52; 51; 52].
Proof.
  split; [|split].
  - apply run_reachable; [apply reachable_initial | reflexivity].
  - vm_compute. reflexivity.
  - vm_compute. reflexivity.
Qed.

(** C5. The claim: after every handler the log holds at most
    [MAX_HISTORY_LENGTH] entries.  What the code does: trimming sits after
    the [try] statement of [chat], and a failed generation call leaves the
    handler before it.  After 25 answered chats (50 entries) and one chat
    whose generation call times out, the log holds 51 entries under a
    maximum of 50. *)
Theorem log_exceeds_maximum_after_failed_generation :
  reachable Sample.settings Sample.after_failed_chat /\
  MAX_HISTORY_LENGTH Sample.settings = 50 /\
  Py.len (conversation_history Sample.after_failed_chat) = 51.
Proof.
  split; [|split].
  - apply run_reachable; [apply reachable_initial | reflexivity].
  - reflexivity.
  - vm_compute. reflexivity.
Qed.

(** ** The prompt *)

(** C6. The claim: under [use_rag] with no snippet found, the prompt holds
    neither a context block nor a placeholder text.  What the code does:
    [query_with_context] answers with its placeholder sentence, the guard in
    [chat] keeps that sentence from being wrapped into a labelled block, and
    the sentence itself stays in [rag_context] and goes into the prompt. *)
Theorem chat_prompt_keeps_no_context_placeholder s env st chat_data :
  passes_checks s chat_data = true ->
  cm_use_rag chat_data = true ->
  snippets_found s env chat_data = [] ->
  let prompt := chat_sent_prompt s env st chat_data in
  In (Generate prompt) (trace (snd (chat s env st chat_data))) /\
  prompt = final_prompt (build_system_prompt (cm_mode chat_data))
             "No relevant context found in knowledge base."
             (chat_history_context env st chat_data)
             (cm_message chat_data) /\
  substring_of "No relevant context found in knowledge base." prompt.
Proof.
  intros Hc Hr Hz prompt.
  assert (Hp : prompt
               = final_prompt (build_system_prompt (cm_mode chat_data))
                   SimpleRAG.no_context
                   (chat_history_context env st chat_data)
                   (cm_message chat_data)).
  { subst prompt. unfold chat_sent_prompt. rewrite chat_prompt_fst.
    rewrite rag_context_fst, rag_context_on by exact Hr. cbv zeta. cbn [fst].
    rewrite query_with_context_fst. unfold snippets_found in Hz. rewrite Hz.
    reflexivity. }
  split; [|split].
  - rewrite (chat_trace _ _ _ _ Hc). apply in_or_app. right.
    apply in_or_app. right. left. reflexivity.
  - exact Hp.
  - rewrite Hp. apply substring_of_final_prompt_rag.
Qed.

Lemma chat_prompt_keeps_no_context_placeholder_witness :
  substring_of "No relevant context found in knowledge base."
    (chat_sent_prompt Sample.settings Sample.env_ok initial_state
       Sample.question_rag).
Proof.
  apply (chat_prompt_keeps_no_context_placeholder Sample.settings Sample.env_ok
           initial_state Sample.question_rag); reflexivity.
Defined.

(** ** Reading the history *)

(** C7. The claim: with a log of one user entry followed by one assistant
    entry, [GET /history?limit=1&offset=0] returns the most recent entry,
    the assistant one.  What the code does: the page is the slice
    [offset:offset+limit] of the log in append order, so it holds the
    oldest entry, the user one; [total] is 2 and [has_more] is true. *)
Theorem history_limit_one_returns_oldest st u a :
  conversation_history st = [u; a] ->
  let page := get_history st 1 0 None in
  messages page = [u] /\ total page = 2 /\ has_more page = true.
Proof.
  intros H page. subst page. unfold get_history. rewrite H.
  repeat split.
Qed.

Lemma history_limit_one_returns_oldest_witness :
  map role (messages (get_history Sample.after_one_chat 1 0 None)) = ["user"].
Proof.
  destruct (history_limit_one_returns_oldest Sample.after_one_chat
              (user_message Sample.env_ok initial_state Sample.question)
              (ai_message Sample.settings Sample.env_ok
                 (append_user_message Sample.env_ok initial_state Sample.question)
                 Sample.question "A derivative is a rate of change."))
    as [H _]; [reflexivity|].
  rewrite H. reflexivity.
Defined.

(** C7 as stated fails on the log left by one answered chat: the single
    message of the page does not have role "assistant". *)
Lemma history_limit_one_counterexample :
  map role (conversation_history Sample.after_one_chat) = ["user"; "assistant"] /\
  ~ (exists m,
       messages (get_history Sample.after_one_chat 1 0 None) = [m] /\
       role m = "assistant").
Proof.
  split; [reflexivity|].
  intros (m & Hm & Hr). vm_compute in Hm. injection Hm as Hm.
  rewrite <- Hm in Hr. discriminate Hr.
Qed.

(** ** The layout of the prompt *)

(** C8. The claim: the history text of the prompt is made of entries older
    than the current message only, up to the configured window of them,
    and the new message comes once, under the closing "Student:" label.
    What the code does: the user entry is appended to the log before
    [format_conversation_history] is called on the log, so the history text
    ends with the line of the current message, the message stands in the
    prompt a second time under the closing label, and the window of 4
    leaves room for 3 older entries only.  The window is the default of the
    parameter; the setting [MAX_CONTEXT_MESSAGES] is read nowhere.  The
    order of the parts of the prompt is the one the claim gives. *)
Theorem chat_prompt_layout s env st chat_data :
  passes_checks s chat_data = true ->
  let older := Py.slice (conversation_history st) (Some (-3)) None in
  let history :=
    Py.join Py.nl
      (map history_line older ++ ["Student: " ++ cm_message chat_data]) in
  let prompt :=
    build_system_prompt (cm_mode chat_data) ++ Py.nl ++ Py.nl ++
    fst (rag_context s env st chat_data) ++ Py.nl ++ Py.nl ++
    history ++ Py.nl ++ Py.nl ++
    "Student: " ++ cm_message chat_data ++ Py.nl ++ Py.nl ++
    "Tutor:" in
  In (Generate prompt) (trace (snd (chat s env st chat_data))) /\
  chat_history_context env st chat_data = history /\
  forall t, history_line t
            = (if String.eqb (role t) "user" then "Student: " else "Tutor: ")
                ++ message t.
Proof.
  intros Hc older history prompt.
  assert (Hh : chat_history_context env st chat_data = history).
  { unfold chat_history_context.
    cbn [append_user_message set_history conversation_history].
    apply format_conversation_history_snoc. }
  split; [|split].
  - rewrite (chat_trace _ _ _ _ Hc). apply in_or_app. right.
    apply in_or_app. right. left. f_equal.
    unfold chat_sent_prompt. rewrite chat_prompt_fst.
    fold (chat_history_context env st chat_data). rewrite Hh.
    rewrite rag_context_fst, <- (rag_context_fst s env st). reflexivity.
  - exact Hh.
  - intros t. unfold history_line.
    destruct (String.eqb (role t) "user"); reflexivity.
Qed.

Lemma chat_prompt_layout_witness :
  chat_history_context Sample.env_ok Sample.after_one_chat Sample.question
  = "Student: What is a derivative?" ++ Py.nl ++
    "Tutor: A derivative is a rate of change." ++ Py.nl ++
    "Student: What is a derivative?".
Proof.
  destruct (chat_prompt_layout Sample.settings Sample.env_ok
              Sample.after_one_chat Sample.question) as (_ & H & _);
    [reflexivity|].
  rewrite H. reflexivity.
Defined.

(** C8 as stated fails on the empty log: no entry is older than the current
    message, and the history text is not empty. *)
Lemma history_context_counterexample :
  chat_history_context Sample.env_ok initial_state Sample.question
  = "Student: What is a derivative?" /\
  chat_history_context Sample.env_ok initial_state Sample.question
  <> format_conversation_history (conversation_history initial_state)
       default_max_messages.
Proof. split; [reflexivity | discriminate]. Qed.

(** ** Clearing the history and rejected requests *)

(** C9. [DELETE /history] without [confirm] raises 400 and leaves the state
    as it was; with [confirm] it empties the log and reports the length the
    log had. *)
Theorem clear_history_spec st :
  (snd (clear_history st false) = st /\
   http_status (fst (clear_history st false)) = 400) /\
  (exists r,
     fst (clear_history st true) = Return r /\
     cleared_count r = Py.len (conversation_history st) /\
     conversation_history (snd (clear_history st true)) = []).
Proof.
  split; [split; reflexivity|].
  eexists. cbn. repeat split.
Qed.

(** C10. A chat request that fails one of the two checks at the head of the
    handler (blank message: 400; no credential: 500) leaves the state, and
    so the conversation log, exactly as it was. *)
Theorem chat_rejected_keeps_state s env st chat_data :
  passes_checks s chat_data = false ->
  snd (chat s env st chat_data) = st /\
  http_status (fst (chat s env st chat_data))
  = (if Py.strip_is_empty (cm_message chat_data) then 400 else 500).
Proof.
  unfold passes_checks, chat. intros H.
  destruct (Py.strip_is_empty (cm_message chat_data)); [split; reflexivity|].
  cbn in H. rewrite H. split; reflexivity.
Qed.

Lemma chat_rejected_keeps_state_witness :
  (snd (chat Sample.settings Sample.env_ok Sample.after_one_chat Sample.blank)
   = Sample.after_one_chat /\
   http_status (fst (chat Sample.settings Sample.env_ok Sample.after_one_chat
                       Sample.blank)) = 400) /\
  (snd (chat (default_settings "") Sample.env_ok Sample.after_one_chat
          Sample.question)
   = Sample.after_one_chat /\
   http_status (fst (chat (default_settings "") Sample.env_ok
                       Sample.after_one_chat Sample.question)) = 500).
Proof.
  split.
  - apply (chat_rejected_keeps_state Sample.settings Sample.env_ok
             Sample.after_one_chat Sample.blank). reflexivity.
  - apply (chat_rejected_keeps_state (default_settings "") Sample.env_ok
             Sample.after_one_chat Sample.question). reflexivity.
Defined.

(** ** More on slices *)

Lemma slice_from_zero_tail {A} (l : list A) : Py.slice l (Some (- 0)) None = l.
Proof.
  unfold Py.slice, Py.slice_index, Py.len. cbn [Z.opp Z.ltb Z.compare].
  rewrite Z.min_l by lia. cbn [Z.to_nat skipn].
  apply firstn_all2. lia.
Qed.

Lemma slice_tail_keeps_last {A} (l : list A) (x : A) (k : Z) :
  0 < k ->
  exists front, Py.slice (l ++ [x])%list (Some (- k)) None = (front ++ [x])%list.
Proof.
  intros Hk. rewrite slice_tail_skipn by exact Hk.
  unfold Py.len. rewrite length_app. cbn [List.length].
  set (n := Z.to_nat (Z.of_nat (List.length l + 1) - k)).
  exists (skipn n l). rewrite skipn_app.
  replace (n - List.length l)%nat with 0%nat by lia. reflexivity.
Qed.

Lemma slice_between {A} (l : list A) (lo hi : Z) :
  0 <= lo -> lo <= hi ->
  Py.slice l (Some lo) (Some hi)
  = firstn (Z.to_nat (hi - lo)) (skipn (Z.to_nat lo) l).
Proof.
  intros Hlo Hhi. unfold Py.slice, Py.slice_index, Py.len.
  replace (lo <? 0) with false by (symmetry; apply Z.ltb_ge; lia).
  replace (hi <? 0) with false by (symmetry; apply Z.ltb_ge; lia).
  set (n := Z.of_nat (List.length l)).
  destruct (Z_le_gt_dec n lo) as [Hn | Hn].
  - rewrite (Z.min_r lo n) by lia. rewrite (Z.min_r hi n) by lia.
    rewrite !skipn_all2 by lia. rewrite !firstn_nil. reflexivity.
  - rewrite (Z.min_l lo n) by lia.
    destruct (Z_le_gt_dec hi n) as [Hh | Hh].
    + rewrite (Z.min_l hi n) by lia. reflexivity.
    + rewrite (Z.min_r hi n) by lia.
      rewrite !firstn_all2; [reflexivity | |]; rewrite length_skipn; lia.
Qed.

Lemma firstn_then_firstn {A} (a b : nat) : forall l : list A,
  (firstn a l ++ firstn b (skipn a l))%list = firstn (a + b) l.
Proof.
  induction a as [|a IH]; intros l; [reflexivity|].
  destruct l as [|x l]; cbn.
  - rewrite firstn_nil. reflexivity.
  - rewrite IH. reflexivity.
Qed.

Lemma slice_sublist {A} (l : list A) (start stop : option Z) (x : A) :
  In x (Py.slice l start stop) -> In x l.
Proof.
  unfold Py.slice. intros H.
  set (n := Z.to_nat _) in H. set (m := Z.to_nat _) in H.
  rewrite <- (firstn_skipn m l). apply in_or_app. right.
  rewrite <- (firstn_skipn n (skipn m l)). apply in_or_app. left. exact H.
Qed.

Lemma slice_between_len {A} (l : list A) (lo hi : Z) :
  0 <= lo -> lo <= hi ->
  Py.len (Py.slice l (Some lo) (Some hi))
  = Z.max 0 (Z.min (hi - lo) (Py.len l - lo)).
Proof.
  intros Hlo Hhi. rewrite slice_between by assumption.
  unfold Py.len. rewrite length_firstn, length_skipn. lia.
Qed.

(** ** More on the generation call *)

(** X1. [call_gemini_api] ends in one of three ways: it returns a text, it
    raises [HTTPException] 504 and the POST timed out, or it raises
    [HTTPException] 500 and the POST did not time out.  No other exception
    and no other status leaves it. *)
Theorem call_gemini_api_outcomes env st prompt :
  (exists text, fst (call_gemini_api env st prompt) = Return text) \/
  (exists d, fst (call_gemini_api env st prompt) = Raise (HTTPException 504 d)
             /\ gemini env prompt = Timeout) \/
  (exists d, fst (call_gemini_api env st prompt) = Raise (HTTPException 500 d)
             /\ gemini env prompt <> Timeout).
Proof.
  unfold call_gemini_api, post_generate.
  destruct (gemini env prompt) as [ | why | status body ].
  - right. left. eexists. split; reflexivity.
  - right. right. eexists. split; [reflexivity | discriminate].
  - destruct (status =? 200).
    + destruct body as [why | [[|c cs]|] err]; cbn;
        try (right; right; eexists; split; [reflexivity | discriminate]).
      destruct (candidate_content c) as [[[[|p ps]|]]|]; cbn;
        try (right; right; eexists; split; [reflexivity | discriminate]).
      destruct (part_text p); cbn.
      * left. eexists. reflexivity.
      * right. right. eexists. split; [reflexivity | discriminate].
    + destruct body; cbn;
        right; right; eexists; (split; [reflexivity | discriminate]).
Qed.

(** X2. The status of an upstream answer other than 200 is not passed on:
    the [HTTPException] built from it is raised inside the [try] and caught
    by [except Exception], so the caller sees status 500 whatever the
    upstream status was. *)
Theorem call_gemini_api_upstream_status_lost env st prompt status body :
  gemini env prompt = Response status body ->
  status <> 200 ->
  exists d, fst (call_gemini_api env st prompt) = Raise (HTTPException 500 d).
Proof.
  intros H Hs. unfold call_gemini_api, post_generate. rewrite H.
  replace (status =? 200) with false by (symmetry; apply Z.eqb_neq; exact Hs).
  destruct body; cbn; eexists; reflexivity.
Qed.

Lemma call_gemini_api_upstream_status_lost_witness :
  http_status
    (fst (call_gemini_api
            {| gemini := fun _ => Response 429 (Json None (Some (Some "quota")));
               similarity_search := fun _ _ => None;
               clock := Sample.clock0 |}
            initial_state "hello"))
  = 500.
Proof.
  destruct (call_gemini_api_upstream_status_lost
              {| gemini := fun _ => Response 429 (Json None (Some (Some "quota")));
                 similarity_search := fun _ _ => None;
                 clock := Sample.clock0 |}
              initial_state "hello" 429 (Json None (Some (Some "quota"))))
    as [d Hd]; [reflexivity | discriminate |].
  rewrite Hd. reflexivity.
Defined.

(** X3. [call_gemini_api] returns a text exactly when the upstream answer
    has status 200 and a JSON body whose first candidate has a content
    whose first part has that text; further candidates and parts are not
    looked at. *)
Theorem call_gemini_api_returns_iff env st prompt text :
  fst (call_gemini_api env st prompt) = Return text <->
  exists c cs err cont p ps,
    gemini env prompt = Response 200 (Json (Some (c :: cs)) err) /\
    candidate_content c = Some cont /\
    content_parts cont = Some (p :: ps) /\
    part_text p = Some text.
Proof.
  unfold call_gemini_api, post_generate. split.
  - destruct (gemini env prompt) as [ | why | status body ];
      try discriminate.
    destruct (status =? 200) eqn:Es.
    + apply Z.eqb_eq in Es. subst status.
      destruct body as [why | [[|c cs]|] err]; cbn; try discriminate.
      destruct (candidate_content c) as [cont|] eqn:Ec; cbn; try discriminate.
      destruct (content_parts cont) as [[|p ps]|] eqn:Ep; cbn; try discriminate.
      destruct (part_text p) as [t|] eqn:Et; cbn; try discriminate.
      intros H. injection H as <-.
      exists c, cs, err, cont, p, ps. auto.
    + destruct body; cbn; discriminate.
  - intros (c & cs & err & cont & p & ps & Hg & Hc & Hp & Ht).
    rewrite Hg. cbn. rewrite Hc. cbn. rewrite Hp. cbn. rewrite Ht. reflexivity.
Qed.

(** ** More on the history text *)

(** X4. With a positive window [k], the history text is made from the last
    [k] entries alone: entries older than those have no influence on it. *)
Theorem format_conversation_history_window older recent k :
  0 < k ->
  Py.len recent = k ->
  format_conversation_history (older ++ recent) k
  = format_conversation_history recent k.
Proof.
  intros Hk Hl. unfold format_conversation_history.
  assert (Hr : recent <> []) by (intros ->; cbn in Hl; lia).
  rewrite !slice_tail_skipn by exact Hk.
  unfold Py.len in *. rewrite length_app, skipn_app.
  replace (Z.to_nat (Z.of_nat (List.length older + List.length recent) - k))
    with (List.length older) by lia.
  replace (Z.to_nat (Z.of_nat (List.length recent) - k)) with 0%nat by lia.
  rewrite skipn_all, Nat.sub_diag. cbn [app skipn].
  destruct recent as [|r rs]; [contradiction|].
  destruct (older ++ r :: rs)%list eqn:E; [destruct older; discriminate|].
  reflexivity.
Qed.

Lemma format_conversation_history_window_witness :
  format_conversation_history
    (conversation_history Sample.after_one_chat
       ++ conversation_history Sample.after_one_chat) 2
  = format_conversation_history (conversation_history Sample.after_one_chat) 2.
Proof.
  apply (format_conversation_history_window
           (conversation_history Sample.after_one_chat)
           (conversation_history Sample.after_one_chat) 2);
    [lia | reflexivity].
Defined.

(** ** More on the chat handler *)

Lemma chat_return_shape s env st chat_data body st' :
  chat s env st chat_data = (Return body, st') ->
  passes_checks s chat_data = true /\
  exists st1,
    conversation_history st1
    = (conversation_history st ++ [user_message env st chat_data])%list /\
    chat_finish s env st1 chat_data (response body) = (Return body, st').
Proof.
  intros Hr.
  destruct (chat_cases s env st chat_data) as [[Hc Hs] | [H | H]].
  - exfalso. unfold passes_checks, chat in *.
    destruct (Py.strip_is_empty (cm_message chat_data)); [discriminate|].
    cbn in Hc. rewrite Hc in Hr. discriminate.
  - destruct H as (c & d & st1 & _ & H). rewrite H in Hr. discriminate.
  - destruct H as (text & st1 & H1 & H). split.
    + destruct (passes_checks s chat_data) eqn:Hc; [reflexivity|].
      exfalso. unfold passes_checks, chat in *.
      destruct (Py.strip_is_empty (cm_message chat_data)); [discriminate|].
      cbn in Hc. rewrite Hc in Hr. discriminate.
    + exists st1. split; [exact H1|].
      rewrite H in Hr.
      assert (Ht : response body = text).
      { pose proof Hr as Hr'. unfold chat_finish in Hr'.
        injection Hr' as Hb _. rewrite <- Hb. reflexivity. }
      rewrite Ht. exact Hr.
Qed.

Lemma ai_message_id s env st1 h u chat_data text :
  conversation_history st1 = (h ++ [u])%list ->
  id (ai_message s env st1 chat_data text) = Py.len h + 2.
Proof.
  intros H. cbn. rewrite H. unfold Py.len. rewrite length_app.
  cbn [List.length]. lia.
Qed.

(** X5. A chat request that returns has appended two entries to the log,
    the user entry and then an assistant entry that carries the response
    text, the mode of the request and the id [len + 2]; the log it leaves
    is the result of trimming that extended log. *)
Theorem chat_return_log s env st chat_data body st' :
  chat s env st chat_data = (Return body, st') ->
  exists ai,
    role ai = "assistant" /\
    message ai = response body /\
    mode ai = cm_mode chat_data /\
    id ai = Py.len (conversation_history st) + 2 /\
    conversation_history st'
    = trim_history s
        (conversation_history st ++ [user_message env st chat_data; ai]).
Proof.
  intros Hr.
  destruct (chat_return_shape _ _ _ _ _ _ Hr) as (_ & st1 & H1 & Hf).
  exists (ai_message s env st1 chat_data (response body)).
  repeat split.
  - apply (ai_message_id s env st1 _ _ chat_data _ H1).
  - assert (Hst : st' = snd (chat_finish s env st1 chat_data (response body)))
      by (rewrite Hf; reflexivity).
    rewrite Hst, chat_finish_history, H1, <- app_assoc. reflexivity.
Qed.

Lemma chat_return_log_witness :
  exists ai,
    role ai = "assistant" /\
    message ai = "A derivative is a rate of change." /\
    mode ai = "study" /\
    id ai = 2 /\
    conversation_history Sample.after_one_chat
    = trim_history Sample.settings
        [user_message Sample.env_ok initial_state Sample.question; ai].
Proof.
  apply (chat_return_log Sample.settings Sample.env_ok initial_state
           Sample.question
           Cases.first_answer
           Sample.after_one_chat).
  reflexivity.
Defined.

(** X6. With a positive maximum, the log a returning chat request leaves
    has [min (MAX_HISTORY_LENGTH, len + 2)] entries, and they are the
    newest entries of the old log followed by the two new ones: what is
    dropped is dropped from the front. *)
Theorem chat_return_log_length s env st chat_data body st' :
  0 < MAX_HISTORY_LENGTH s ->
  chat s env st chat_data = (Return body, st') ->
  Py.len (conversation_history st')
  = Z.min (MAX_HISTORY_LENGTH s) (Py.len (conversation_history st) + 2) /\
  exists dropped kept,
    conversation_history st = (dropped ++ kept)%list /\
    exists ai,
      (conversation_history st' = kept ++ [user_message env st chat_data; ai]
       \/ (kept = [] /\ conversation_history st' = [ai]))%list.
Proof.
  intros Hm Hr.
  destruct (chat_return_shape _ _ _ _ _ _ Hr) as (_ & st1 & H1 & Hf).
  assert (Hst : conversation_history st'
                = trim_history s
                    (conversation_history st
                       ++ [user_message env st chat_data;
                           ai_message s env st1 chat_data (response body)])).
  { assert (E : st' = snd (chat_finish s env st1 chat_data (response body)))
      by (rewrite Hf; reflexivity).
    rewrite E, chat_finish_history, H1, <- app_assoc. reflexivity. }
  set (u := user_message env st chat_data) in *.
  set (ai := ai_message s env st1 chat_data (response body)) in *.
  set (h := conversation_history st) in *.
  split.
  - rewrite Hst, trim_history_len by exact Hm.
    unfold Py.len. rewrite length_app. cbn [List.length]. lia.
  - unfold trim_history in Hst.
    destruct (MAX_HISTORY_LENGTH s <? Py.len (h ++ [u; ai])) eqn:E.
    + rewrite slice_tail_skipn in Hst by exact Hm.
      unfold Py.len in Hst, E. rewrite length_app in Hst, E.
      cbn [List.length] in Hst, E. apply Z.ltb_lt in E.
      set (n := Z.to_nat (Z.of_nat (List.length h + 2) - MAX_HISTORY_LENGTH s)) in Hst.
      destruct (Nat.le_gt_cases n (List.length h)) as [Hn | Hn].
      * exists (firstn n h), (skipn n h). split; [symmetry; apply firstn_skipn|].
        exists ai. left. rewrite Hst, skipn_app.
        replace (n - List.length h)%nat with 0%nat by lia. reflexivity.
      * exists h, []. split; [symmetry; apply app_nil_r|].
        exists ai. right. split; [reflexivity|].
        assert (n = S (List.length h)) by lia.
        rewrite Hst, skipn_app, skipn_all2 by lia.
        replace (n - List.length h)%nat with 1%nat by lia. reflexivity.
    + exists [], h. split; [reflexivity|]. exists ai. left. exact Hst.
Qed.

Lemma chat_return_log_length_witness :
  Py.len (conversation_history Sample.after_one_chat) = 2.
Proof.
  destruct (chat_return_log_length Sample.settings Sample.env_ok initial_state
              Sample.question
              Cases.first_answer
              Sample.after_one_chat) as [H _]; [reflexivity | reflexivity |].
  rewrite H. reflexivity.
Defined.

(** X7. A maximum of 0 does not empty the log, it switches trimming off:
    the slice [[-0:]] is the whole list, so a returning chat request leaves
    the old log with both new entries appended and nothing dropped. *)
Theorem chat_never_trims_at_zero s env st chat_data body st' :
  MAX_HISTORY_LENGTH s = 0 ->
  chat s env st chat_data = (Return body, st') ->
  exists ai,
    conversation_history st'
    = (conversation_history st ++ [user_message env st chat_data; ai])%list /\
    Py.len (conversation_history st') = Py.len (conversation_history st) + 2.
Proof.
  intros Hm Hr.
  destruct (chat_return_shape _ _ _ _ _ _ Hr) as (_ & st1 & H1 & Hf).
  exists (ai_message s env st1 chat_data (response body)).
  assert (E : st' = snd (chat_finish s env st1 chat_data (response body)))
    by (rewrite Hf; reflexivity).
  assert (Hh : conversation_history st'
               = (conversation_history st
                    ++ [user_message env st chat_data;
                        ai_message s env st1 chat_data (response body)])%list).
  { rewrite E, chat_finish_history, H1, <- app_assoc. cbn [app].
    unfold trim_history. rewrite Hm.
    destruct (0 <? _); [apply slice_from_zero_tail | reflexivity]. }
  split; [exact Hh|].
  rewrite Hh. unfold Py.len. rewrite length_app. cbn [List.length]. lia.
Qed.

Lemma chat_never_trims_at_zero_witness :
  exists ai,
    conversation_history Cases.max0_state
    = [user_message Sample.env_ok initial_state Sample.question; ai] /\
    Py.len (conversation_history Cases.max0_state) = 2.
Proof.
  apply (chat_never_trims_at_zero Cases.settings_max0 Sample.env_ok
           initial_state Sample.question Cases.max0_answer Cases.max0_state);
    reflexivity.
Defined.

(** X8. In the body of a returning chat request, [message_id] is the length
    of the log before the request plus 2 (the position of the assistant
    entry before trimming, not its position in the log that is left), and
    [conversation_length] is the length of the log that is left.  With a
    maximum of at least 0, the last entry of that log is the assistant
    entry: it has that id and the response text. *)
Theorem chat_response_fields s env st chat_data body st' :
  0 <= MAX_HISTORY_LENGTH s ->
  chat s env st chat_data = (Return body, st') ->
  cr_message_id body = Py.len (conversation_history st) + 2 /\
  conversation_length body = Py.len (conversation_history st') /\
  rag_used body = cm_use_rag chat_data /\
  exists front ai,
    conversation_history st' = (front ++ [ai])%list /\
    id ai = cr_message_id body /\
    message ai = response body /\
    role ai = "assistant".
Proof.
  intros Hm Hr.
  destruct (chat_return_shape _ _ _ _ _ _ Hr) as (_ & st1 & H1 & Hf).
  pose proof (ai_message_id s env st1 _ _ chat_data (response body) H1) as Hid.
  unfold chat_finish in Hf. injection Hf as Hb Hst.
  set (ai := ai_message s env st1 chat_data (response body)) in *.
  assert (Hh : conversation_history st'
               = trim_history s (conversation_history st1 ++ [ai]))
    by (rewrite <- Hst; reflexivity).
  assert (Hmid : cr_message_id body = id ai) by (rewrite <- Hb; reflexivity).
  split; [rewrite Hmid; exact Hid|].
  split; [rewrite <- Hb, <- Hst; reflexivity|].
  split; [rewrite <- Hb; reflexivity|].
  assert (Hlast : exists front,
             conversation_history st' = (front ++ [ai])%list).
  { unfold trim_history in Hh.
    destruct (MAX_HISTORY_LENGTH s <? _).
    - destruct (Z.eq_dec (MAX_HISTORY_LENGTH s) 0) as [E0 | E0].
      + rewrite E0, slice_from_zero_tail in Hh. eauto.
      + destruct (slice_tail_keeps_last (conversation_history st1) ai
                    (MAX_HISTORY_LENGTH s)) as [front Hfr]; [lia|].
        exists front. rewrite Hh. exact Hfr.
    - eauto. }
  destruct Hlast as [front Hfr].
  exists front, ai.
  split; [exact Hfr|]. split; [symmetry; exact Hmid|]. split; reflexivity.
Qed.

Lemma chat_response_fields_witness :
  cr_message_id Cases.first_answer = 2 /\
  conversation_length Cases.first_answer
  = Py.len (conversation_history Sample.after_one_chat).
Proof.
  destruct (chat_response_fields Sample.settings Sample.env_ok initial_state
              Sample.question Cases.first_answer Sample.after_one_chat)
    as (H1 & H2 & _); [cbn; lia | reflexivity |].
  split; [exact H1 | exact H2].
Defined.

(** X9. [chat] returns a body with a given response text exactly when the
    request passes both checks and the generation call yields that text
    for the prompt that was sent.  So the response of a returned body is
    always the generated text, never a text [chat] substituted. *)
Theorem chat_returns_iff s env st chat_data text :
  (exists body,
     fst (chat s env st chat_data) = Return body /\ response body = text) <->
  passes_checks s chat_data = true /\
  post_generate env (chat_sent_prompt s env st chat_data) = Return text.
Proof.
  split.
  - intros (body & Hb & Ht).
    destruct (chat s env st chat_data) as [r st'] eqn:E. cbn in Hb. subst r.
    split.
    + apply (chat_return_shape _ _ _ _ _ _ E).
    + rewrite <- Ht. apply (chat_response_is_generated _ _ _ _ _ _ E).
  - intros [Hc Ht].
    destruct (chat_history_on_success s env st chat_data text Hc Ht) as [H _].
    rewrite H. eexists. split; reflexivity.
Qed.

(** X10. The calls a chat request makes to the collaborators: none when it
    fails a check; otherwise one generation call, preceded by one search
    (for the message, with [SEARCH_RESULTS] as the count) when [use_rag] is
    set and by nothing when it is not.  This holds whether the generation
    call succeeds or fails. *)
Theorem chat_collaborator_calls s env st chat_data :
  trace (snd (chat s env st chat_data))
  = (trace st ++
     if passes_checks s chat_data then
       (if cm_use_rag chat_data
        then [VectorSearch (cm_message chat_data) (SEARCH_RESULTS s)]
        else [])
       ++ [Generate (chat_sent_prompt s env st chat_data)]
     else [])%list.
Proof.
  destruct (passes_checks s chat_data) eqn:Hc.
  - apply chat_trace. exact Hc.
  - rewrite (rejected_chat_state _ _ _ _ Hc). symmetry. apply app_nil_r.
Qed.

(** X11. Every prompt [chat] sends begins with the base persona
    [SYSTEM_PROMPT] and ends with the message under the label "Student:"
    followed by the cue "Tutor:", whatever the mode, the log and the
    retrieval result are. *)
Theorem chat_prompt_frame s env st chat_data :
  exists middle,
    chat_sent_prompt s env st chat_data
    = Prompts.SYSTEM_PROMPT ++ middle ++
      "Student: " ++ cm_message chat_data ++ Py.nl ++ Py.nl ++ "Tutor:".
Proof.
  unfold chat_sent_prompt. rewrite chat_prompt_fst. unfold final_prompt.
  set (rag := fst (rag_context _ _ _ _)).
  set (hist := format_conversation_history _ _).
  unfold build_system_prompt.
  destruct (String.eqb (cm_mode chat_data) "study");
    [|destruct (String.eqb (cm_mode chat_data) "research");
      [|destruct (String.eqb (cm_mode chat_data) "general")]];
    repeat rewrite append_assoc.
  - exists (Py.nl ++ Py.nl ++ Prompts.STUDY_TUTOR_PROMPT ++ Py.nl ++ Py.nl
              ++ rag ++ Py.nl ++ Py.nl ++ hist ++ Py.nl ++ Py.nl).
    repeat rewrite append_assoc. reflexivity.
  - exists (Py.nl ++ Py.nl ++ Prompts.RESEARCH_ASSISTANT_PROMPT ++ Py.nl ++ Py.nl
              ++ rag ++ Py.nl ++ Py.nl ++ hist ++ Py.nl ++ Py.nl).
    repeat rewrite append_assoc. reflexivity.
  - exists (Py.nl ++ Py.nl ++ rag ++ Py.nl ++ Py.nl ++ hist ++ Py.nl ++ Py.nl).
    repeat rewrite append_assoc. reflexivity.
  - exists (Py.nl ++ Py.nl ++ rag ++ Py.nl ++ Py.nl ++ hist ++ Py.nl ++ Py.nl).
    repeat rewrite append_assoc. reflexivity.
Qed.

(** ** More on retrieval *)

Lemma substring_of_trans a b c :
  substring_of b c -> substring_of a b -> substring_of a c.
Proof.
  intros (p1 & q1 & H1) (p2 & q2 & H2). subst c b.
  exists (p1 ++ p2), (q2 ++ q1).
  repeat rewrite append_assoc. reflexivity.
Qed.

Lemma join_context_parts_head sep r rs :
  exists tl,
    Py.join sep (map SimpleRAG.context_part (r :: rs)) = String "[" tl.
Proof.
  destruct rs as [|r' rs]; cbn; eexists; reflexivity.
Qed.

(** X12. Under [use_rag] with at least one snippet found, the retrieval
    text of the prompt is the labelled block: the marker line
    "[Relevant context from uploaded documents]:" followed by the snippets,
    each rendered with its filename, score and content and separated by
    "---" lines. *)
Theorem chat_prompt_holds_context_block s env st chat_data :
  cm_use_rag chat_data = true ->
  snippets_found s env chat_data <> [] ->
  fst (rag_context s env st chat_data)
  = Py.nl ++ Py.nl ++ "[Relevant context from uploaded documents]:" ++ Py.nl
      ++ Py.join (Py.nl ++ "---" ++ Py.nl)
           (map SimpleRAG.context_part (snippets_found s env chat_data))
      ++ Py.nl /\
  substring_of "[Relevant context from uploaded documents]:"
    (chat_sent_prompt s env st chat_data).
Proof.
  intros Hr Hne.
  assert (Hc : forall st0,
             fst (rag_context s env st0 chat_data)
             = Py.nl ++ Py.nl ++ "[Relevant context from uploaded documents]:"
                 ++ Py.nl
                 ++ Py.join (Py.nl ++ "---" ++ Py.nl)
                      (map SimpleRAG.context_part (snippets_found s env chat_data))
                 ++ Py.nl).
  { intros st0. rewrite rag_context_on by exact Hr. cbv zeta. cbn [fst].
    rewrite query_with_context_fst. fold (snippets_found s env chat_data).
    destruct (snippets_found s env chat_data) as [|r rs]; [contradiction|].
    destruct (join_context_parts_head (Py.nl ++ "---" ++ Py.nl) r rs) as [tl Htl].
    rewrite Htl. reflexivity. }
  split; [apply Hc|].
  unfold chat_sent_prompt. rewrite chat_prompt_fst.
  apply (substring_of_trans _ _ _
           (substring_of_final_prompt_rag _ _ _ _)).
  rewrite Hc. exists (Py.nl ++ Py.nl). eexists. reflexivity.
Qed.

Lemma chat_prompt_holds_context_block_witness :
  fst (rag_context Sample.settings Cases.env_one_chunk initial_state
         Sample.question_rag)
  = Py.nl ++ Py.nl ++ "[Relevant context from uploaded documents]:" ++ Py.nl
      ++ "[Source: calculus.txt, Relevance: 0.82]" ++ Py.nl
      ++ "The derivative measures the slope of a curve." ++ Py.nl ++ Py.nl.
Proof.
  destruct (chat_prompt_holds_context_block Sample.settings Cases.env_one_chunk
              initial_state Sample.question_rag) as [H _];
    [reflexivity | discriminate |].
  rewrite H. reflexivity.
Defined.

(** X14. A vector store that raises is not told apart from an empty
    knowledge base: [search] answers [] in both cases, so the retrieval
    text is the same sentence "No relevant context found in knowledge
    base." and the failure reaches neither the prompt nor the caller. *)
Theorem search_failure_is_silent s env st chat_data :
  cm_use_rag chat_data = true ->
  similarity_search env (cm_message chat_data) (SEARCH_RESULTS s) = None ->
  snippets_found s env chat_data = [] /\
  fst (rag_context s env st chat_data)
  = "No relevant context found in knowledge base.".
Proof.
  intros Hr Hs.
  assert (Hz : snippets_found s env chat_data = []).
  { unfold snippets_found, SimpleRAG.search.
    destruct (SEARCH_RESULTS s =? 0); rewrite Hs; reflexivity. }
  split; [exact Hz|].
  rewrite rag_context_on by exact Hr. cbv zeta. cbn [fst].
  rewrite query_with_context_fst. fold (snippets_found s env chat_data).
  rewrite Hz. reflexivity.
Qed.

Lemma search_failure_is_silent_witness :
  http_status (fst (chat Sample.settings Cases.env_store_down initial_state
                      Sample.question_rag)) = 200 /\
  fst (rag_context Sample.settings Cases.env_store_down initial_state
         Sample.question_rag)
  = "No relevant context found in knowledge base.".
Proof.
  split; [reflexivity|].
  apply (search_failure_is_silent Sample.settings Cases.env_store_down
           initial_state Sample.question_rag); reflexivity.
Defined.

(** ** More on ids *)

Lemma slice_len_le {A} (l : list A) (start stop : option Z) :
  Py.len (Py.slice l start stop) <= Py.len l.
Proof.
  unfold Py.slice. cbv zeta.
  set (a := Z.to_nat _). set (b := Z.to_nat _).
  unfold Py.len. rewrite length_firstn, length_skipn. lia.
Qed.

Lemma trim_history_len_le s h : Py.len (trim_history s h) <= Py.len h.
Proof.
  unfold trim_history. destruct (_ <? _); [apply slice_len_le | lia].
Qed.

Lemma chat_count_nonneg rs : 0 <= chat_count rs.
Proof. induction rs as [|[] rs IH]; cbn [chat_count]; lia. Qed.

Lemma handle_log_growth s st r :
  Py.len (conversation_history (handle s st r))
  <= Py.len (conversation_history st) + 2 * chat_count [r].
Proof.
  destruct r as [env chat_data | env feedback | limit offset m | confirm];
    cbn [handle chat_count].
  - destruct (chat_cases s env st chat_data) as [[_ Hs] | [H | H]].
    + rewrite Hs. lia.
    + destruct H as (c & d & st1 & H1 & H). rewrite H. cbn [snd]. rewrite H1.
      unfold Py.len. rewrite length_app. cbn [List.length]. lia.
    + destruct H as (text & st1 & H1 & H). rewrite H, chat_finish_history.
      etransitivity; [apply trim_history_len_le|].
      rewrite H1. unfold Py.len. rewrite !length_app. cbn [List.length]. lia.
  - cbn. lia.
  - lia.
  - destruct confirm; cbn; unfold Py.len; lia.
Qed.

Lemma handle_keeps_ids_from_one s st r :
  ids_from_one (conversation_history st) ->
  Py.len (conversation_history st) + 2 * chat_count [r] <= MAX_HISTORY_LENGTH s ->
  ids_from_one (conversation_history (handle s st r)).
Proof.
  intros Hi Hl.
  destruct r as [env chat_data | env feedback | limit offset m | confirm];
    cbn [handle chat_count] in *.
  - apply chat_keeps_ids_from_one; [exact Hi | lia].
  - exact Hi.
  - exact Hi.
  - destruct confirm; [apply ids_from_one_nil | exact Hi].
Qed.

Lemma run_keeps_ids_from_one s rs : forall st,
  ids_from_one (conversation_history st) ->
  Py.len (conversation_history st) + 2 * chat_count rs <= MAX_HISTORY_LENGTH s ->
  ids_from_one (conversation_history (run s st rs)).
Proof.
  induction rs as [|r rs IH]; intros st Hi Hl; [exact Hi|].
  change (run s st (r :: rs)) with (run s (handle s st r) rs).
  assert (Hc : chat_count (r :: rs) = chat_count [r] + chat_count rs)
    by (destruct r; cbn [chat_count]; lia).
  pose proof (chat_count_nonneg rs) as Hn.
  pose proof (handle_log_growth s st r) as Hg.
  apply IH.
  - apply handle_keeps_ids_from_one; [exact Hi | lia].
  - lia.
Qed.

(** X15. Over any sequence of requests (chats that return or raise,
    feedback, history reads, clears) from the empty log, as long as twice
    the number of chat requests does not exceed [MAX_HISTORY_LENGTH], the
    id of every entry is its 1-based position in the log; in particular
    the ids are contiguous. *)
Theorem ids_are_positions_while_log_fits s rs :
  2 * chat_count rs <= MAX_HISTORY_LENGTH s ->
  ids_from_one (conversation_history (run s initial_state rs)) /\
  contiguous_ids (conversation_history (run s initial_state rs)) = true.
Proof.
  intros H.
  assert (Hi : ids_from_one (conversation_history (run s initial_state rs))).
  { apply run_keeps_ids_from_one; [apply ids_from_one_nil|].
    change (Py.len (conversation_history initial_state)) with 0. lia. }
  split; [exact Hi | apply ids_from_one_contiguous; exact Hi].
Qed.

Lemma ids_are_positions_while_log_fits_witness :
  map id
    (conversation_history
       (run Sample.settings initial_state
          [PostChat Sample.env_ok Sample.question;
           PostChat Sample.env_timeout Sample.question;
           PostChat Sample.env_ok Sample.question]))
  = [1; 2; 3; 4; 5].
Proof.
  destruct (ids_are_positions_while_log_fits Sample.settings
              [PostChat Sample.env_ok Sample.question;
               PostChat Sample.env_timeout Sample.question;
               PostChat Sample.env_ok Sample.question]) as [H _];
    [cbn; lia|].
  unfold ids_from_one in H. rewrite H. reflexivity.
Defined.

(** X16. With a maximum of at least 2, a chat request handled directly on
    the log a confirmed [DELETE /history] left (no other request in
    between), if it returns, leaves a log with the ids 1 and 2 and reports
    [message_id] 2, whatever ids the cleared log had handed out: ids start
    again at 1 and are used a second time. *)
Theorem ids_restart_after_clear s env st chat_data body st' :
  2 <= MAX_HISTORY_LENGTH s ->
  chat s env (snd (clear_history st true)) chat_data = (Return body, st') ->
  map id (conversation_history st') = [1; 2] /\ cr_message_id body = 2.
Proof.
  intros Hm Hr.
  destruct (chat_return_shape _ _ _ _ _ _ Hr) as (_ & st1 & H1 & Hf).
  cbn [clear_history negb snd set_history conversation_history app] in H1.
  pose proof (ai_message_id s env st1 [] _ chat_data (response body) H1) as Hid.
  unfold chat_finish in Hf. injection Hf as Hb Hst.
  split.
  - rewrite <- Hst. cbn [set_history conversation_history].
    rewrite trim_history_fits.
    + rewrite H1. cbn [app map].
      exact (f_equal (fun x => [1; x]) Hid).
    + rewrite H1. cbn. lia.
  - rewrite <- Hb. exact Hid.
Qed.

Lemma ids_restart_after_clear_witness :
  map id (conversation_history Cases.after_clear_chat) = [1; 2] /\
  cr_message_id Cases.first_answer = 2.
Proof.
  apply (ids_restart_after_clear Sample.settings Sample.env_ok
           Sample.after_27_chats Sample.question Cases.first_answer
           Cases.after_clear_chat); [cbn; lia | vm_compute; reflexivity].
Defined.

(** ** More on reading the history *)

Lemma slice_whole {A} (l : list A) (n : Z) :
  Py.len l <= n -> Py.slice l (Some 0) (Some (0 + n)) = l.
Proof.
  intros H. assert (0 <= Py.len l) by (unfold Py.len; lia).
  rewrite slice_between by lia. cbn [Z.to_nat skipn].
  apply firstn_all2. unfold Py.len in *. lia.
Qed.

Lemma filter_len_le {A} (f : A -> bool) (l : list A) :
  Py.len (filter f l) <= Py.len l.
Proof.
  unfold Py.len. pose proof (filter_length_le f l). lia.
Qed.

Lemma filtered_history_eq st m :
  filtered_history st m
  = match m with
    | Some m' =>
        if Py.truthy m'
        then filter (fun msg => String.eqb (mode msg) m') (conversation_history st)
        else conversation_history st
    | None => conversation_history st
    end.
Proof.
  unfold filtered_history, get_history. cbn [messages].
  destruct m as [m'|]; [destruct (Py.truthy m')|];
    apply slice_whole; try lia; apply filter_len_le.
Qed.

Lemma get_history_messages st limit offset m :
  messages (get_history st limit offset m)
  = Py.slice (filtered_history st m) (Some offset) (Some (offset + limit)).
Proof.
  rewrite filtered_history_eq. unfold get_history.
  destruct m as [m'|]; [destruct (Py.truthy m')|]; reflexivity.
Qed.

Lemma get_history_total st limit offset m :
  total (get_history st limit offset m) = Py.len (filtered_history st m).
Proof.
  rewrite filtered_history_eq. unfold get_history.
  destruct m as [m'|]; [destruct (Py.truthy m')|]; reflexivity.
Qed.

(** X17. Pages of [GET /history] fit together: for offsets and limits that
    are not negative, the page of [a] entries at [offset] followed by the
    page of [b] entries at [offset + a] is the page of [a + b] entries at
    [offset], under the same mode filter. *)
Theorem get_history_pages_concat st a b offset m :
  0 <= offset -> 0 <= a -> 0 <= b ->
  (messages (get_history st a offset m)
     ++ messages (get_history st b (offset + a) m))%list
  = messages (get_history st (a + b) offset m).
Proof.
  intros Ho Ha Hb. rewrite !get_history_messages.
  rewrite !slice_between by lia.
  replace (Z.to_nat (offset + a)) with (Z.to_nat a + Z.to_nat offset)%nat by lia.
  rewrite <- skipn_skipn.
  replace (Z.to_nat (offset + a - offset)) with (Z.to_nat a) by lia.
  replace (Z.to_nat (offset + a + b - (offset + a))) with (Z.to_nat b) by lia.
  replace (Z.to_nat (offset + (a + b) - offset))
    with (Z.to_nat a + Z.to_nat b)%nat by lia.
  apply firstn_then_firstn.
Qed.

Lemma get_history_pages_concat_witness :
  (messages (get_history Sample.after_27_chats 3 10 None)
     ++ messages (get_history Sample.after_27_chats 4 (10 + 3) None))%list
  = messages (get_history Sample.after_27_chats (3 + 4) 10 None).
Proof.
  apply (get_history_pages_concat Sample.after_27_chats 3 4 10 None); lia.
Defined.

(** X18. For an offset and a limit that are not negative, the page of
    [GET /history] is the stretch of the log in append order (of its
    entries of the given mode, under a mode filter that is not empty) that
    starts at position [offset] and has at most [limit] entries; [total] is
    the length of that log, the page holds [min (limit, total - offset)]
    entries (none when the offset is past the end), [has_more] says
    whether entries are left after the page, and when it is false the page
    is everything from the offset to the end. *)
Theorem get_history_page_size st limit offset m :
  0 <= offset -> 0 <= limit ->
  let log :=
    match m with
    | Some m' =>
        if Py.truthy m'
        then filter (fun t => String.eqb (mode t) m') (conversation_history st)
        else conversation_history st
    | None => conversation_history st
    end in
  let page := get_history st limit offset m in
  messages page = firstn (Z.to_nat limit) (skipn (Z.to_nat offset) log) /\
  total page = Py.len log /\
  Py.len (messages page) = Z.max 0 (Z.min limit (Py.len log - offset)) /\
  has_more page = (offset + limit <? Py.len log) /\
  (has_more page = false -> messages page = skipn (Z.to_nat offset) log).
Proof.
  intros Ho Hl log page.
  assert (Hlog : log = filtered_history st m)
    by (symmetry; apply filtered_history_eq).
  assert (Hm : messages page
               = firstn (Z.to_nat limit) (skipn (Z.to_nat offset) log)).
  { subst page. rewrite get_history_messages, <- Hlog.
    rewrite slice_between by lia. f_equal. lia. }
  assert (Ht : total page = Py.len log)
    by (subst page; rewrite get_history_total, <- Hlog; reflexivity).
  assert (Hh : has_more page = (offset + limit <? Py.len log)).
  { subst page log. unfold get_history.
    destruct m as [m'|]; [destruct (Py.truthy m')|]; reflexivity. }
  split; [exact Hm|]. split; [exact Ht|]. split; [|split; [exact Hh|]].
  - rewrite Hm. unfold Py.len. rewrite length_firstn, length_skipn. lia.
  - intros Hf. rewrite Hh in Hf. apply Z.ltb_ge in Hf.
    rewrite Hm. apply firstn_all2. rewrite length_skipn.
    unfold Py.len in Hf. lia.
Qed.

Lemma get_history_page_size_witness :
  map id (messages (get_history Sample.after_27_chats 20 45 None))
  = [50; 51; 52; 51; 52] /\
  has_more (get_history Sample.after_27_chats 20 45 None) = false.
Proof.
  destruct (get_history_page_size Sample.after_27_chats 20 45 None)
    as (H1 & _ & _ & H4 & _); [lia | lia |].
  split; [rewrite H1 | rewrite H4]; vm_compute; reflexivity.
Defined.

(** X19. Under a mode filter that is not the empty string, every message
    of a page is an entry of the log with that mode, and [total] is the
    number of entries of the log with that mode; this holds for every limit
    and offset, negative ones included. *)
Theorem get_history_mode_filter st limit offset m :
  Py.truthy m = true ->
  Forall (fun t => mode t = m /\ In t (conversation_history st))
    (messages (get_history st limit offset (Some m))) /\
  total (get_history st limit offset (Some m))
  = Py.len (filter (fun t => String.eqb (mode t) m) (conversation_history st)).
Proof.
  intros Hm. split.
  - apply Forall_forall. intros t Ht.
    rewrite get_history_messages, filtered_history_eq, Hm in Ht.
    apply slice_sublist in Ht. apply filter_In in Ht as [Hin He].
    split; [apply String.eqb_eq; exact He | exact Hin].
  - rewrite get_history_total, filtered_history_eq, Hm. reflexivity.
Qed.

Lemma get_history_mode_filter_witness :
  total (get_history Sample.after_one_chat 20 0 (Some "research")) = 0 /\
  total (get_history Sample.after_one_chat 20 0 (Some "study")) = 2.
Proof.
  split.
  - destruct (get_history_mode_filter Sample.after_one_chat 20 0 "research")
      as [_ H]; [reflexivity|].
    rewrite H. reflexivity.
  - destruct (get_history_mode_filter Sample.after_one_chat 20 0 "study")
      as [_ H]; [reflexivity|].
    rewrite H. reflexivity.
Defined.

(** X20. A negative offset is taken as a position counted from the end of
    the log, and the stop [offset + limit] is taken the same way: with
    [offset = - limit] the stop is 0, so the page is empty, while
    [has_more] still says whether the log has any entry at all. *)
Theorem get_history_negative_offset st limit m :
  0 < limit ->
  messages (get_history st limit (- limit) m) = [] /\
  has_more (get_history st limit (- limit) m)
  = (0 <? total (get_history st limit (- limit) m)).
Proof.
  intros Hl. split.
  - rewrite get_history_messages.
    unfold Py.slice, Py.slice_index.
    replace (- limit <? 0) with true by (symmetry; apply Z.ltb_lt; lia).
    replace (- limit + limit) with 0 by lia. cbn [Z.ltb Z.compare].
    assert (0 <= Py.len (filtered_history st m)) by (unfold Py.len; lia).
    replace (Z.to_nat _) with 0%nat by lia. reflexivity.
  - unfold get_history. cbn [has_more total].
    replace (- limit + limit) with 0 by lia. reflexivity.
Qed.

Lemma get_history_negative_offset_witness :
  messages (get_history Sample.after_one_chat 1 (- 1) None) = [] /\
  has_more (get_history Sample.after_one_chat 1 (- 1) None) = true.
Proof.
  destruct (get_history_negative_offset Sample.after_one_chat 1 None)
    as [H1 H2]; [lia|].
  split; [exact H1 | exact (eq_trans H2 eq_refl)].
Defined.

(** ** CORS origins *)

Example cors_wildcard_padded :
  get_cors_origins {| CORS_ORIGINS := " * "; MAX_UPLOAD_SIZE := 0; DEBUG := false |}
  = ["*"].
Proof. reflexivity. Qed.

Example cors_two_origins :
  get_cors_origins
    {| CORS_ORIGINS := "http://a.example, http://b.example ";
       MAX_UPLOAD_SIZE := 0; DEBUG := false |}
  = ["http://a.example"; "http://b.example"].
Proof. reflexivity. Qed.

Example cors_wildcard_in_list :
  get_cors_origins
    {| CORS_ORIGINS := "*,http://a.example"; MAX_UPLOAD_SIZE := 0; DEBUG := false |}
  = ["*"; "http://a.example"].
Proof. reflexivity. Qed.

Example cors_empty_setting :
  get_cors_origins {| CORS_ORIGINS := ""; MAX_UPLOAD_SIZE := 0; DEBUG := false |}
  = [""].
Proof. reflexivity. Qed.

Lemma PyStr_count_nonneg c s : 0 <= PyStr.count c s.
Proof.
  induction s as [|x s IH]; cbn [PyStr.count]; [lia|].
  destruct (Ascii.eqb x c); lia.
Qed.

Lemma split_len sep s : Py.len (PyStr.split sep s) = 1 + PyStr.count sep s.
Proof.
  unfold Py.len. induction s as [|c s IH]; [reflexivity|].
  pose proof (PyStr_count_nonneg sep s) as Hn.
  cbn [PyStr.split PyStr.count]. destruct (Ascii.eqb c sep).
  - cbn [List.length]. lia.
  - destruct (PyStr.split sep s) as [|w ws]; cbn [List.length] in *; lia.
Qed.

Lemma join_split_comma s : Py.join "," (PyStr.split "," s) = s.
Proof.
  induction s as [|c s IH]; [reflexivity|].
  cbn [PyStr.split]. destruct (Ascii.eqb c ",") eqn:E.
  - apply Ascii.eqb_eq in E. subst c.
    destruct (PyStr.split "," s) as [|w ws] eqn:Es.
    + pose proof (split_len "," s) as Hl. rewrite Es in Hl.
      pose proof (PyStr_count_nonneg "," s).
      unfold Py.len in Hl. cbn [List.length] in Hl. lia.
    + change (Py.join "," ("" :: w :: ws)) with ("," ++ Py.join "," (w :: ws)).
      rewrite IH. reflexivity.
  - destruct (PyStr.split "," s) as [|w ws] eqn:Es.
    + pose proof (split_len "," s) as Hl. rewrite Es in Hl.
      pose proof (PyStr_count_nonneg "," s).
      unfold Py.len in Hl. cbn [List.length] in Hl. lia.
    + rewrite <- IH. destruct ws as [|w' ws]; reflexivity.
Qed.

Lemma split_pieces_have_no_comma s :
  Forall (fun piece => PyStr.count "," piece = 0) (PyStr.split "," s).
Proof.
  induction s as [|c s IH]; [repeat constructor|].
  cbn [PyStr.split]. destruct (Ascii.eqb c ",") eqn:E.
  - constructor; [reflexivity | exact IH].
  - destruct (PyStr.split "," s) as [|w ws].
    + repeat constructor. cbn [PyStr.count]. rewrite E. reflexivity.
    + inversion IH as [|? ? Hw Hws]; subst.
      constructor; [|exact Hws].
      cbn [PyStr.count]. rewrite E, Hw. reflexivity.
Qed.

(** X21. [get_cors_origins] on a setting that is "*" once stripped
    answers ["*"].  On any other setting it answers with the stripped
    pieces of the setting, in order, where the pieces are the texts between
    the commas: they hold no comma, joined by commas they give the setting
    back, and there is one more of them than the setting has commas, empty
    pieces included.  In both cases the answer is not the empty list. *)
Theorem get_cors_origins_count ss :
  (PyStr.strip (CORS_ORIGINS ss) = "*" -> get_cors_origins ss = ["*"]) /\
  (PyStr.strip (CORS_ORIGINS ss) <> "*" ->
   exists pieces,
     Py.join "," pieces = CORS_ORIGINS ss /\
     Forall (fun piece => PyStr.count "," piece = 0) pieces /\
     Py.len pieces = 1 + PyStr.count "," (CORS_ORIGINS ss) /\
     get_cors_origins ss = map PyStr.strip pieces) /\
  get_cors_origins ss <> [].
Proof.
  pose proof (split_len "," (CORS_ORIGINS ss)) as Hl.
  pose proof (PyStr_count_nonneg "," (CORS_ORIGINS ss)) as Hc.
  unfold get_cors_origins.
  destruct (String.eqb (PyStr.strip (CORS_ORIGINS ss)) "*") eqn:E.
  - split; [reflexivity|]. split; [|discriminate].
    intros Hn. apply String.eqb_eq in E. contradiction.
  - split; [|split].
    + intros Hs. apply String.eqb_neq in E. contradiction.
    + intros _. exists (PyStr.split "," (CORS_ORIGINS ss)).
      split; [apply join_split_comma|].
      split; [apply split_pieces_have_no_comma|].
      split; [exact Hl | reflexivity].
    + intros Hn. apply (f_equal (@List.length string)) in Hn.
      rewrite length_map in Hn. unfold Py.len in Hl. cbn in Hn. lia.
Qed.

(** ** The health check *)

(** X22. [GET /health] looks at the status of the probe only: when the
    endpoint answers 200 with a body that has no candidates, the health
    check reports "connected" (and "healthy"), while a generation call
    answered the same way raises and reaches the caller of [/chat] as
    status 500.  The probe is one upstream call and the logs are left as
    they were. *)
Theorem health_connected_while_generation_fails s env st prompt err :
  gemini env "test" = Response 200 (Json None err) ->
  gemini env prompt = Response 200 (Json None err) ->
  api_connection (fst (health_check s env st)) = "connected" /\
  h_status (fst (health_check s env st)) = "healthy" /\
  http_status (fst (call_gemini_api env st prompt)) = 500 /\
  trace (snd (health_check s env st)) = (trace st ++ [Generate "test"])%list /\
  conversation_history (snd (health_check s env st)) = conversation_history st.
Proof.
  intros Ht Hp. unfold health_check, call_gemini_api, post_generate.
  rewrite Ht, Hp. repeat split.
Qed.

Lemma health_connected_while_generation_fails_witness :
  api_connection
    (fst (health_check Sample.settings Cases.env_no_candidates initial_state))
  = "connected" /\
  http_status
    (fst (chat Sample.settings Cases.env_no_candidates initial_state
            Sample.question))
  = 500.
Proof.
  split; [|reflexivity].
  apply (health_connected_while_generation_fails Sample.settings
           Cases.env_no_candidates initial_state "hello" None);
    reflexivity.
Defined.

(** ** Adding a document *)

Import Ingest.

Lemma make_documents_contents file_path metadata n chunks : forall i,
  map doc_page_content (make_documents file_path metadata n i chunks) = chunks.
Proof.
  induction chunks as [|c cs IH]; intros i; [reflexivity|].
  cbn [make_documents map doc_page_content]. rewrite IH. reflexivity.
Qed.

Lemma make_documents_len file_path metadata n chunks i :
  Py.len (make_documents file_path metadata n i chunks) = Py.len chunks.
Proof.
  unfold Py.len. rewrite <- (length_map doc_page_content),
    make_documents_contents. reflexivity.
Qed.

Lemma make_documents_nth file_path metadata n chunks : forall i k doc,
  nth_error (make_documents file_path metadata n i chunks) k = Some doc ->
  exists chunk,
    nth_error chunks k = Some chunk /\
    doc = {| doc_page_content := chunk;
             doc_metadata :=
               chunk_metadata file_path metadata n (i + Z.of_nat k) chunk |}.
Proof.
  induction chunks as [|c cs IH]; intros i k doc H.
  - destruct k; discriminate.
  - destruct k as [|k]; cbn in H.
    + injection H as <-. exists c. split; [reflexivity|].
      rewrite Z.add_0_r. reflexivity.
    + destruct (IH (i + 1) k doc H) as (chunk & Hc & Hd).
      exists chunk. split; [exact Hc|].
      rewrite Hd. do 2 f_equal. lia.
Qed.

Lemma dict_get_set d key v k :
  dict_get (dict_set d key v) k
  = if String.eqb key k then Some v else dict_get d k.
Proof.
  induction d as [|[k0 w] d IH]; cbn [dict_set dict_get].
  - reflexivity.
  - destruct (String.eqb k0 key) eqn:E0.
    + apply String.eqb_eq in E0. subst k0. cbn [dict_get].
      destruct (String.eqb key k); reflexivity.
    + cbn [dict_get]. destruct (String.eqb k0 k) eqn:E1.
      * apply String.eqb_eq in E1. subst k0.
        rewrite String.eqb_sym, E0. reflexivity.
      * exact IH.
Qed.

Lemma dict_get_update_other other : forall d k,
  dict_get other k = None ->
  dict_get (dict_update d other) k = dict_get d k.
Proof.
  unfold dict_update.
  induction other as [|[k0 v0] other IH]; intros d k H; [reflexivity|].
  cbn [fold_left fst snd]. cbn [dict_get] in H.
  destruct (String.eqb k0 k) eqn:E; [discriminate|].
  rewrite IH by exact H. rewrite dict_get_set, E. reflexivity.
Qed.

Lemma dict_get_update_given other : forall d k v,
  NoDup (map fst other) ->
  dict_get other k = Some v ->
  dict_get (dict_update d other) k = Some v.
Proof.
  unfold dict_update.
  induction other as [|[k0 v0] other IH]; intros d k v Hn H; [discriminate|].
  cbn [fold_left fst snd]. cbn [dict_get] in H. cbn [map fst] in Hn.
  inversion Hn as [|? ? Hnot Hn']; subst.
  destruct (String.eqb k0 k) eqn:E.
  - injection H as <-. apply String.eqb_eq in E. subst k0.
    assert (Hk : dict_get other k = None).
    { clear -Hnot. induction other as [|[k1 v1] other IH]; [reflexivity|].
      cbn [dict_get]. destruct (String.eqb k1 k) eqn:E1.
      - apply String.eqb_eq in E1. subst k1. exfalso. apply Hnot. left. reflexivity.
      - apply IH. intros Hin. apply Hnot. right. exact Hin. }
    pose proof (dict_get_update_other other (dict_set d k v0) k Hk) as Hu.
    unfold dict_update in Hu. rewrite Hu, dict_get_set, String.eqb_refl.
    reflexivity.
  - apply IH; assumption.
Qed.

Lemma add_document_continue_cases env file_path metadata text
    (r : result AddResult * list (list Document)) :
  r = (if (negb (Py.truthy text) || (char_count (PyStr.strip text) <? 50))%bool
       then (Return (AddError "Document too short or could not extract text"), [])
       else
         match add_documents env
                 (make_documents file_path metadata
                    (Py.len (split_text env text)) 0 (split_text env text)) with
         | None =>
             (Return (AddOk (Py.len (split_text env text)) file_path
                        (char_count text)),
              [make_documents file_path metadata
                 (Py.len (split_text env text)) 0 (split_text env text)])
         | Some why =>
             (Return (AddFailed ("Failed to embed documents: " ++ why)),
              [make_documents file_path metadata
                 (Py.len (split_text env text)) 0 (split_text env text)])
         end) ->
  match fst r with
  | Return (AddOk n src _) =>
      exists docs,
        snd r = [docs] /\ Py.len docs = n /\ src = file_path /\
        add_documents env docs = None
  | Return (AddFailed e) =>
      exists docs why,
        snd r = [docs] /\ add_documents env docs = Some why /\
        e = "Failed to embed documents: " ++ why
  | Return (AddError _) => snd r = []
  | Raise _ => snd r = []
  end.
Proof.
  intros ->.
  destruct (negb (Py.truthy text) || _)%bool; [reflexivity|].
  destruct (add_documents env _) as [why|] eqn:E; cbn [fst snd].
  - eexists _, why. repeat split. exact E.
  - eexists. split; [reflexivity|]. split; [apply make_documents_len|].
    split; [reflexivity | exact E].
Qed.

Lemma add_document_answer_cases env file_path metadata :
  match fst (add_document env file_path metadata) with
  | Return (AddOk n src _) =>
      exists docs,
        snd (add_document env file_path metadata) = [docs] /\
        Py.len docs = n /\ src = file_path /\
        add_documents env docs = None
  | Return (AddFailed e) =>
      exists docs why,
        snd (add_document env file_path metadata) = [docs] /\
        add_documents env docs = Some why /\
        e = "Failed to embed documents: " ++ why
  | Return (AddError _) => snd (add_document env file_path metadata) = []
  | Raise _ => snd (add_document env file_path metadata) = []
  end.
Proof.
  unfold add_document.
  destruct (PyStr.endswith file_path ".pdf").
  - apply (add_document_continue_cases env file_path metadata
             (extract_text_from_pdf env file_path)). reflexivity.
  - destruct (PyStr.endswith file_path ".txt" || PyStr.endswith file_path ".md")%bool;
      [|reflexivity].
    destruct (read_text env file_path) as [text|e]; [|reflexivity].
    apply (add_document_continue_cases env file_path metadata text). reflexivity.
Qed.

(** X23. [add_document] hands at most one batch to the vector store, and
    its answer tells what happened to it: a success answer means the store
    took the batch and [chunks_added] is the number of documents in it; a
    "Failed to embed documents" answer means the store raised on the
    batch; and an error answer (unsupported format, text too short) or a
    raised read error means the store was not called at all. *)
Theorem add_document_store_calls env file_path metadata :
  match fst (add_document env file_path metadata) with
  | Return (AddOk n src _) =>
      exists docs,
        snd (add_document env file_path metadata) = [docs] /\
        Py.len docs = n /\ src = file_path /\
        add_documents env docs = None
  | Return (AddFailed e) =>
      exists docs why,
        snd (add_document env file_path metadata) = [docs] /\
        add_documents env docs = Some why /\
        e = "Failed to embed documents: " ++ why
  | Return (AddError _) => snd (add_document env file_path metadata) = []
  | Raise _ => snd (add_document env file_path metadata) = []
  end.
Proof. apply add_document_answer_cases. Qed.

Lemma add_document_batch env file_path metadata docs :
  snd (add_document env file_path metadata) = [docs] ->
  exists text,
    (if PyStr.endswith file_path ".pdf"
     then text = extract_text_from_pdf env file_path
     else read_text env file_path = Return text) /\
    50 <= char_count (PyStr.strip text) /\
    docs = make_documents file_path metadata
             (Py.len (split_text env text)) 0 (split_text env text).
Proof.
  unfold add_document.
  assert (Hc : forall text,
             snd (if (negb (Py.truthy text)
                      || (char_count (PyStr.strip text) <? 50))%bool
                  then (Return (AddError "Document too short or could not extract text"),
                        [])
                  else
                    match add_documents env
                            (make_documents file_path metadata
                               (Py.len (split_text env text)) 0
                               (split_text env text)) with
                    | None =>
                        (Return (AddOk (Py.len (split_text env text)) file_path
                                   (char_count text)),
                         [make_documents file_path metadata
                            (Py.len (split_text env text)) 0 (split_text env text)])
                    | Some why =>
                        (Return (AddFailed ("Failed to embed documents: " ++ why)),
                         [make_documents file_path metadata
                            (Py.len (split_text env text)) 0 (split_text env text)])
                    end) = [docs] ->
             50 <= char_count (PyStr.strip text) /\
             docs = make_documents file_path metadata
                      (Py.len (split_text env text)) 0 (split_text env text)).
  { intros text H.
    destruct (negb (Py.truthy text)) ; [discriminate|]. cbn [orb] in H.
    destruct (char_count (PyStr.strip text) <? 50) eqn:E; [discriminate|].
    apply Z.ltb_ge in E. split; [exact E|].
    destruct (add_documents env _); cbn [snd] in H; injection H as <-; reflexivity. }
  destruct (PyStr.endswith file_path ".pdf").
  - intros H. exists (extract_text_from_pdf env file_path).
    split; [reflexivity | apply Hc; exact H].
  - destruct (PyStr.endswith file_path ".txt" || PyStr.endswith file_path ".md")%bool;
      [|discriminate].
    destruct (read_text env file_path) as [text|e]; [|discriminate].
    intros H. exists text. split; [reflexivity | apply Hc; exact H].
Qed.

(** X24. The batch [add_document] hands to the store is made of the text
    of the file at the given path: what [extract_text_from_pdf] gives for a
    path ending in ".pdf", what reading the file gives otherwise.  That
    text is at least 50 characters long once stripped, and the batch has
    one document for each chunk the splitter made of it, in the splitter's
    order.  Unless the caller's metadata carries these keys itself,
    document [k] has ["chunk_id"] [k] (counted from 0), ["total_chunks"]
    the number of documents and ["source"] the file path. *)
Theorem add_document_documents env file_path metadata docs :
  (forall m key, metadata = Some m ->
     In key ["chunk_id"; "total_chunks"; "source"] -> dict_get m key = None) ->
  snd (add_document env file_path metadata) = [docs] ->
  exists text,
    (if PyStr.endswith file_path ".pdf"
     then text = extract_text_from_pdf env file_path
     else read_text env file_path = Return text) /\
    50 <= char_count (PyStr.strip text) /\
    map doc_page_content docs = split_text env text /\
    Py.len docs = Py.len (split_text env text) /\
    forall k doc,
      nth_error docs k = Some doc ->
      nth_error (split_text env text) k = Some (doc_page_content doc) /\
      dict_get (doc_metadata doc) "chunk_id" = Some (MInt (Z.of_nat k)) /\
      dict_get (doc_metadata doc) "total_chunks" = Some (MInt (Py.len docs)) /\
      dict_get (doc_metadata doc) "source" = Some (MStr file_path).
Proof.
  intros Hfree Hs.
  destruct (add_document_batch env file_path metadata docs Hs)
    as (text & Htext & Hlen & Hd).
  assert (Hn : Py.len docs = Py.len (split_text env text))
    by (rewrite Hd; apply make_documents_len).
  exists text. split; [exact Htext|]. split; [exact Hlen|]. split; [|split].
  - rewrite Hd. apply make_documents_contents.
  - exact Hn.
  - intros k doc Hk.
    rewrite Hd in Hk.
    destruct (make_documents_nth _ _ _ _ _ _ _ Hk) as (chunk & Hc & ->).
    cbn [doc_metadata doc_page_content]. split; [exact Hc|].
    rewrite Hn. unfold chunk_metadata.
    destruct metadata as [[|kv m]|]; cbn [dict_get String.eqb Ascii.eqb Bool.eqb];
      try (repeat split; reflexivity).
    rewrite !dict_get_update_other;
      try (apply (Hfree (kv :: m)); [reflexivity | cbn; tauto]).
    repeat split.
Qed.

Lemma add_document_documents_witness :
  exists doc,
    nth_error Cases.calculus_docs 1 = Some doc /\
    dict_get (doc_metadata doc) "chunk_id" = Some (MInt 1) /\
    dict_get (doc_metadata doc) "total_chunks" = Some (MInt 2).
Proof.
  destruct (add_document_documents Cases.rag_env "./temp_uploads/calculus.txt"
              (Some Cases.upload_metadata) Cases.calculus_docs)
    as (text & _ & _ & _ & _ & H).
  - intros m key Hm Hk. injection Hm as <-.
    cbn in Hk. destruct Hk as [<- | [<- | [<- | []]]]; reflexivity.
  - reflexivity.
  - eexists. split; [reflexivity|].
    destruct (H 1%nat _ eq_refl) as (_ & H1 & H2 & _).
    split; [exact H1 | exact H2].
Defined.

(** X25. Metadata given by the caller wins over the fields [add_document]
    computes: for every key of a non-empty metadata dict, every document
    of the batch carries the caller's value under that key, also for the
    keys ["source"], ["chunk_id"] and ["original_filename"]. *)
Theorem add_document_metadata_wins env file_path m key v docs :
  NoDup (map fst m) ->
  dict_get m key = Some v ->
  snd (add_document env file_path (Some m)) = [docs] ->
  Forall (fun doc => dict_get (doc_metadata doc) key = Some v) docs.
Proof.
  intros Hn Hg Hs.
  destruct (add_document_batch env file_path (Some m) docs Hs)
    as (text & _ & _ & Hd).
  apply Forall_forall. intros doc Hin.
  apply In_nth_error in Hin as [k Hk]. rewrite Hd in Hk.
  destruct (make_documents_nth _ _ _ _ _ _ _ Hk) as (chunk & _ & ->).
  cbn [doc_metadata]. unfold chunk_metadata.
  destruct m as [|kv m]; [discriminate|].
  apply dict_get_update_given; assumption.
Qed.

Lemma add_document_metadata_wins_witness :
  Forall (fun doc => dict_get (doc_metadata doc) "filename"
                     = Some (MStr "calculus.txt")) Cases.calculus_docs.
Proof.
  apply (add_document_metadata_wins Cases.rag_env "./temp_uploads/calculus.txt"
           Cases.upload_metadata "filename" (MStr "calculus.txt")).
  - repeat (constructor; [cbn; intuition discriminate|]). constructor.
  - reflexivity.
  - reflexivity.
Defined.

(** X13. A PDF that cannot be opened or read does not make
    [add_document] raise: [extract_text_from_pdf] answers with the empty
    text, and the document is turned down as "too short" without a call
    to the vector store. *)
Theorem add_document_unreadable_pdf env file_path metadata :
  PyStr.endswith file_path ".pdf" = true ->
  pdf_pages env file_path = None ->
  extract_text_from_pdf env file_path = "" /\
  add_document env file_path metadata
  = (Return (AddError "Document too short or could not extract text"), []).
Proof.
  intros Hp Hn.
  assert (He : extract_text_from_pdf env file_path = "")
    by (unfold extract_text_from_pdf; rewrite Hn; reflexivity).
  split; [exact He|].
  unfold add_document. rewrite Hp, He. reflexivity.
Qed.

Lemma add_document_unreadable_pdf_witness :
  add_document
    {| read_text := fun _ => Return Cases.lesson;
       pdf_pages := fun _ => None;
       split_text := fun text => [text];
       add_documents := fun _ => None |}
    "./temp_uploads/scan.pdf" None
  = (Return (AddError "Document too short or could not extract text"), []).
Proof.
  apply (add_document_unreadable_pdf
           {| read_text := fun _ => Return Cases.lesson;
              pdf_pages := fun _ => None;
              split_text := fun text => [text];
              add_documents := fun _ => None |}
           "./temp_uploads/scan.pdf" None);
    reflexivity.
Defined.

(** ** Uploading a document *)

Import Upload.

Example splitext_plain : PyStr.splitext_ext "notes.txt" = ".txt".
Proof. reflexivity. Qed.

Example splitext_last_dot : PyStr.splitext_ext "archive.tar.gz" = ".gz".
Proof. reflexivity. Qed.

Example splitext_hidden_file : PyStr.splitext_ext ".txt" = "".
Proof. reflexivity. Qed.

Example splitext_dot_in_directory : PyStr.splitext_ext "v1.2/notes" = "".
Proof. reflexivity. Qed.

Example path_join_relative :
  PyStr.path_join temp_dir "notes.txt" = "./temp_uploads/notes.txt".
Proof. reflexivity. Qed.

Example upload_sample_succeeds :
  http_status
    (fst (upload_document default_server_settings Cases.rag_env
            "2025-01-01T00:00:00" "calculus.txt" Cases.lesson None None))
  = 200.
Proof. reflexivity. Qed.

Lemma upload_document_past_checks ss env now filename contents description tags :
  existsb (String.eqb (PyStr.lower (PyStr.splitext_ext filename)))
    allowed_extensions = true ->
  Z.of_nat (String.length contents) <= MAX_UPLOAD_SIZE ss ->
  let temp_path := PyStr.path_join temp_dir filename in
  let metadata : Metadata :=
    [ ("filename", MStr filename);
      ("uploaded_at", MStr now);
      ("description",
       match description with Some d => MStr d | None => MNone end);
      ("tags",
       match tags with
       | Some t => if Py.truthy t then MList (PyStr.split "," t) else MList []
       | None => MList []
       end);
      ("file_type", MStr (PyStr.lower (PyStr.splitext_ext filename)));
      ("file_size", MInt (Z.of_nat (String.length contents))) ] in
  let added := add_document env temp_path (Some metadata) in
  upload_document ss env now filename contents description tags
  = (match fst added with
     | Return (AddOk chunks_added _ _) =>
         Return {| up_success := true;
                   up_filename := filename;
                   up_chunks_added := chunks_added;
                   up_message := "Document successfully added to knowledge base";
                   up_metadata := metadata |}
     | Return (AddError error) => Raise (HTTPException 500 error)
     | Return (AddFailed error) => Raise (HTTPException 500 error)
     | Raise e => Raise (HTTPException 500 ("Upload failed: " ++ exn_str e))
     end,
     {| fs := [MakeDirs temp_dir; WriteFile temp_path contents;
               RemoveFile temp_path];
        stored := snd added |}).
Proof.
  intros He Hs. cbv zeta. unfold upload_document. rewrite He. cbn [negb].
  replace (MAX_UPLOAD_SIZE ss <? Z.of_nat (String.length contents)) with false
    by (symmetry; apply Z.ltb_ge; exact Hs).
  destruct (add_document env _ _) as [[[]|] batches]; reflexivity.
Qed.

(** X26. What an upload leaves on disk: a request turned down for its
    extension touches nothing; one turned down for its size has only made
    the temporary directory; every other request writes the bytes to the
    temporary path and removes that file again before it answers, whether
    the document was added (200) or not (500).  The two status-400 answers
    are given before anything is written or handed to the vector store. *)
Theorem upload_cleans_up ss env now filename contents description tags :
  let r := upload_document ss env now filename contents description tags in
  let temp_path := PyStr.path_join temp_dir filename in
  (http_status (fst r) = 400 /\ fs (snd r) = [] /\ stored (snd r) = []) \/
  (http_status (fst r) = 400 /\ fs (snd r) = [MakeDirs temp_dir] /\
   stored (snd r) = [] /\
   MAX_UPLOAD_SIZE ss < Z.of_nat (String.length contents)) \/
  ((http_status (fst r) = 200 \/ http_status (fst r) = 500) /\
   fs (snd r) = [MakeDirs temp_dir; WriteFile temp_path contents;
                 RemoveFile temp_path]).
Proof.
  cbv zeta.
  destruct (existsb (String.eqb (PyStr.lower (PyStr.splitext_ext filename)))
              allowed_extensions) eqn:He.
  - destruct (Z_le_gt_dec (Z.of_nat (String.length contents))
                (MAX_UPLOAD_SIZE ss)) as [Hs | Hs].
    + right. right.
      rewrite (upload_document_past_checks ss env now filename contents
                 description tags He Hs).
      cbv zeta. cbn [fst snd fs]. split; [|reflexivity].
      destruct (fst (add_document env _ _)) as [[]|]; cbn; auto.
    + right. left. unfold upload_document. rewrite He. cbn [negb].
      replace (MAX_UPLOAD_SIZE ss <? Z.of_nat (String.length contents)) with true
        by (symmetry; apply Z.ltb_lt; lia).
      cbn. repeat split. lia.
  - left. unfold upload_document. rewrite He. cbn. auto.
Qed.

(** X27. An upload whose extension is accepted by the check, which
    compares in lower case, but whose temporary path ends in none of
    ".pdf", ".txt" and ".md" as written (an extension with a capital
    letter, as in "NOTES.TXT") is answered with status 500 and the detail
    "Unsupported file format": [add_document] compares the ending as it is.
    The file is written and removed, and nothing reaches the vector
    store. *)
Theorem upload_capital_extension ss env now filename contents description tags :
  existsb (String.eqb (PyStr.lower (PyStr.splitext_ext filename)))
    allowed_extensions = true ->
  Z.of_nat (String.length contents) <= MAX_UPLOAD_SIZE ss ->
  existsb (PyStr.endswith (PyStr.path_join temp_dir filename))
    allowed_extensions = false ->
  upload_document ss env now filename contents description tags
  = (Raise (HTTPException 500 "Unsupported file format"),
     {| fs := [MakeDirs temp_dir;
               WriteFile (PyStr.path_join temp_dir filename) contents;
               RemoveFile (PyStr.path_join temp_dir filename)];
        stored := [] |}).
Proof.
  intros He Hs Hn.
  rewrite (upload_document_past_checks ss env now filename contents
             description tags He Hs).
  cbv zeta. cbn [existsb allowed_extensions] in Hn.
  apply orb_false_iff in Hn as [Hpdf Hn].
  apply orb_false_iff in Hn as [Htxt Hn].
  apply orb_false_iff in Hn as [Hmd _].
  unfold add_document. rewrite Hpdf, Htxt, Hmd. reflexivity.
Qed.

Lemma upload_capital_extension_witness :
  http_status
    (fst (upload_document default_server_settings Cases.rag_env
            "2025-01-01T00:00:00" "NOTES.TXT" Cases.lesson None None))
  = 500.
Proof.
  rewrite (upload_capital_extension default_server_settings Cases.rag_env
             "2025-01-01T00:00:00" "NOTES.TXT" Cases.lesson None None);
    [reflexivity | reflexivity | cbn; lia | reflexivity].
Defined.

(** X28. An upload of a text file whose text, stripped, has fewer than 50
    characters is answered with status 500 and the detail "Document too
    short or could not extract text"; nothing reaches the vector store. *)
Theorem upload_short_text ss env now filename contents description tags text :
  existsb (String.eqb (PyStr.lower (PyStr.splitext_ext filename)))
    allowed_extensions = true ->
  Z.of_nat (String.length contents) <= MAX_UPLOAD_SIZE ss ->
  PyStr.endswith (PyStr.path_join temp_dir filename) ".pdf" = false ->
  (PyStr.endswith (PyStr.path_join temp_dir filename) ".txt"
   || PyStr.endswith (PyStr.path_join temp_dir filename) ".md")%bool = true ->
  read_text env (PyStr.path_join temp_dir filename) = Return text ->
  char_count (PyStr.strip text) < 50 ->
  fst (upload_document ss env now filename contents description tags)
  = Raise (HTTPException 500 "Document too short or could not extract text") /\
  stored (snd (upload_document ss env now filename contents description tags))
  = [].
Proof.
  intros He Hs Hpdf Htxt Hr Hl.
  rewrite (upload_document_past_checks ss env now filename contents
             description tags He Hs).
  cbv zeta. unfold add_document. rewrite Hpdf, Htxt, Hr.
  replace (char_count (PyStr.strip text) <? 50) with true
    by (symmetry; apply Z.ltb_lt; exact Hl).
  rewrite orb_true_r. split; reflexivity.
Qed.

Lemma upload_short_text_witness :
  http_status
    (fst (upload_document default_server_settings Cases.rag_env_short
            "2025-01-01T00:00:00" "tiny.txt" "hello" None None))
  = 500.
Proof.
  destruct (upload_short_text default_server_settings Cases.rag_env_short
              "2025-01-01T00:00:00" "tiny.txt" "hello" None None "hello")
    as [H _];
    [reflexivity | cbn; lia | reflexivity | reflexivity | reflexivity
     | reflexivity |].
  rewrite H. reflexivity.
Defined.

(** X29. The file name of an upload is joined to the temporary directory
    as it is: a name that starts with "/" replaces the directory, so the
    bytes are written to, and the file then removed at, the path the
    client gave. *)
Theorem upload_absolute_filename ss env now filename contents description tags :
  existsb (String.eqb (PyStr.lower (PyStr.splitext_ext filename)))
    allowed_extensions = true ->
  Z.of_nat (String.length contents) <= MAX_UPLOAD_SIZE ss ->
  PyStr.startswith filename "/" = true ->
  fs (snd (upload_document ss env now filename contents description tags))
  = [MakeDirs temp_dir; WriteFile filename contents; RemoveFile filename].
Proof.
  intros He Hs Ha.
  rewrite (upload_document_past_checks ss env now filename contents
             description tags He Hs).
  cbv zeta. cbn [snd fs]. unfold PyStr.path_join. rewrite Ha. reflexivity.
Qed.

Lemma upload_absolute_filename_witness :
  fs (snd (upload_document default_server_settings Cases.rag_env
             "2025-01-01T00:00:00" "/srv/app/notes.txt" Cases.lesson None None))
  = [MakeDirs "./temp_uploads";
     WriteFile "/srv/app/notes.txt" Cases.lesson;
     RemoveFile "/srv/app/notes.txt"].
Proof.
  apply (upload_absolute_filename default_server_settings Cases.rag_env
           "2025-01-01T00:00:00" "/srv/app/notes.txt" Cases.lesson None None);
    [reflexivity | cbn; lia | reflexivity].
Defined.

(** X30. An upload answered with a body reports the file name it was given
    and, as [chunks_added], the number of documents of the one batch the
    vector store took; the ["file_type"] of its metadata is the extension
    in lower case, one of ".pdf", ".txt" and ".md". *)
Theorem upload_success_report ss env now filename contents description tags body :
  fst (upload_document ss env now filename contents description tags)
  = Return body ->
  up_filename body = filename /\
  (exists docs,
     stored (snd (upload_document ss env now filename contents description tags))
     = [docs] /\
     up_chunks_added body = Py.len docs /\
     add_documents env docs = None) /\
  exists ext,
    dict_get (up_metadata body) "file_type" = Some (MStr ext) /\
    In ext allowed_extensions.
Proof.
  intros Hr.
  destruct (existsb (String.eqb (PyStr.lower (PyStr.splitext_ext filename)))
              allowed_extensions) eqn:He;
    [|unfold upload_document in Hr; rewrite He in Hr; discriminate].
  destruct (Z_le_gt_dec (Z.of_nat (String.length contents))
              (MAX_UPLOAD_SIZE ss)) as [Hs | Hs].
  - rewrite (upload_document_past_checks ss env now filename contents
               description tags He Hs) in *.
    cbv zeta in *. cbn [fst snd stored] in *.
    pose proof (add_document_answer_cases env
                  (PyStr.path_join temp_dir filename)
                  (Some
                     [("filename", MStr filename); ("uploaded_at", MStr now);
                      ("description",
                       match description with Some d => MStr d | None => MNone end);
                      ("tags",
                       match tags with
                       | Some t =>
                           if Py.truthy t then MList (PyStr.split "," t)
                           else MList []
                       | None => MList []
                       end);
                      ("file_type",
                       MStr (PyStr.lower (PyStr.splitext_ext filename)));
                      ("file_size", MInt (Z.of_nat (String.length contents)))]))
      as Hc.
    destruct (fst (add_document env _ _)) as [[e | n src tc | e] | e];
      try discriminate.
    injection Hr as <-. cbn [up_filename up_chunks_added up_metadata].
    destruct Hc as (docs & Hd & Hn & _ & Ha).
    split; [reflexivity|]. split.
    + exists docs.
      split; [exact Hd | split; [symmetry; exact Hn | exact Ha]].
    + exists (PyStr.lower (PyStr.splitext_ext filename)).
      split; [reflexivity|].
      apply existsb_exists in He as (x & Hin & Hx).
      apply String.eqb_eq in Hx. rewrite Hx. exact Hin.
  - unfold upload_document in Hr. rewrite He in Hr. cbn [negb] in Hr.
    replace (MAX_UPLOAD_SIZE ss <? Z.of_nat (String.length contents)) with true
      in Hr by (symmetry; apply Z.ltb_lt; lia).
    discriminate.
Qed.

Lemma upload_success_report_witness :
  exists body,
    fst (upload_document default_server_settings Cases.rag_env
           "2025-01-01T00:00:00" "calculus.txt" Cases.lesson None None)
    = Return body /\
    up_filename body = "calculus.txt".
Proof.
  eexists. split; [reflexivity|].
  apply (upload_success_report default_server_settings Cases.rag_env
           "2025-01-01T00:00:00" "calculus.txt" Cases.lesson None None).
  reflexivity.
Defined.
